(** * A shallow embedding of the agent loop and the planning flow of
    OpenManus_UIToCode.

    Covered source files:
    - app/agent/toolcall.py  ([ToolCallAgent.think], [act], [execute_tool],
      [_handle_special_tool]);
    - app/agent/react.py     ([ReActAgent.step]);
    - app/flow/base.py       ([PlanStepStatus]);
    - app/flow/planning.py   ([PlanningFlow.execute] and its helpers).

    Python strings are sequences of code points: they are modelled as
    [list N].  Python exceptions are the [exn] values below; state changes
    made before a [raise] are kept, as in Python.  External services (the
    language model, the tools, the plan store, the executor agents) are
    parameters: every theorem holds for all of their behaviours. *)

From Stdlib Require Import String Ascii NArith.
From stdpp Require Import base list gmap strings.

Open Scope N_scope.
Set Warnings "-register-all".

(** ** Python strings *)

Definition pystr := list N.

(** UTF-8 decoding of the bytes of a Rocq string literal, so that source
    literals (some of them not ASCII) can be written as they appear. *)
Fixpoint utf8_decode (l : list N) : pystr :=
  match l with
  | [] => []
  | b :: r =>
      if b <? 128 then b :: utf8_decode r
      else if b <? 224 then
        match r with
        | c :: r' => (N.land b 31 * 64 + N.land c 63) :: utf8_decode r'
        | [] => [b]
        end
      else if b <? 240 then
        match r with
        | c :: d :: r' =>
            (N.land b 15 * 4096 + N.land c 63 * 64 + N.land d 63) :: utf8_decode r'
        | _ => [b]
        end
      else
        match r with
        | c :: d :: e :: r' =>
            (N.land b 7 * 262144 + N.land c 63 * 4096 + N.land d 63 * 64
             + N.land e 63) :: utf8_decode r'
        | _ => [b]
        end
  end.

Definition lit (s : string) : pystr :=
  utf8_decode (map N_of_ascii (list_ascii_of_string s)).

Definition nonempty (s : pystr) : bool :=
  match s with [] => false | _ => true end.

Definition nl : pystr := [10%N].
Definition dq : pystr := [34%N].  (** a double quote *)

(** Truthiness of a Python list. *)
Definition nonempty_list {A} (l : list A) : bool :=
  match l with [] => false | _ => true end.

(** [sep.join(xs)] *)
Fixpoint join (sep : pystr) (xs : list pystr) : pystr :=
  match xs with
  | [] => []
  | [x] => x
  | x :: xs' => x ++ sep ++ join sep xs'
  end.

(** [str.lower()] on the ASCII letters. *)
Definition lower_char (c : N) : N := if (65 <=? c) && (c <=? 90) then c + 32 else c.
Definition lower (s : pystr) : pystr := map lower_char s.

(** [str(n)] for a non-negative integer. *)
Fixpoint digits_rev (fuel : nat) (n : N) : pystr :=
  match fuel with
  | O => []
  | S f => (48 + n mod 10) :: (if n <? 10 then [] else digits_rev f (n / 10))
  end.
Definition show_nat (n : nat) : pystr := rev (digits_rev (S n) (N.of_nat n)).

Close Scope N_scope.

(** ** Python exceptions *)

Inductive exn_class :=
| ValueError | JSONDecodeError | RuntimeError | TypeError | IndexError
| AttributeError | KeyError | TokenLimitExceeded | RetryError | ToolError
| OtherError.

(** An exception: its class, [str(e)] and its [__cause__]. *)
Inductive exn := Exn (cls : exn_class) (msg : pystr) (cause : option exn).

Definition exn_cls (e : exn) : exn_class := let 'Exn c _ _ := e in c.
Definition exn_msg (e : exn) : pystr := let 'Exn _ m _ := e in m.
Definition exn_cause (e : exn) : option exn := let 'Exn _ _ c := e in c.

(** [isinstance(e, ValueError)]: [JSONDecodeError] subclasses [ValueError]. *)
Definition is_value_error (c : exn_class) : bool :=
  match c with ValueError | JSONDecodeError => true | _ => false end.

(** ** A state and exception monad

    [Diverge] stands for a [while True] loop that has not returned within
    the fuel given to its model. *)

Inductive res (A : Type) := Ok (a : A) | Raise (e : exn) | Diverge.
Arguments Ok {A} a.
Arguments Raise {A} e.
Arguments Diverge {A}.

Record st (S A : Type) := MkSt { run_st : S -> res A * S }.
Arguments MkSt {S A} _.
Arguments run_st {S A} _ _.

Definition ret {S A} (a : A) : st S A := MkSt (fun s => (Ok a, s)).

Definition bind {S A B} (m : st S A) (k : A -> st S B) : st S B :=
  MkSt (fun s =>
    match run_st m s with
    | (Ok a, s') => run_st (k a) s'
    | (Raise e, s') => (Raise e, s')
    | (Diverge, s') => (Diverge, s')
    end).

Definition throw {S A} (e : exn) : st S A := MkSt (fun s => (Raise e, s)).
Definition get {S} : st S S := MkSt (fun s => (Ok s, s)).
Definition modify {S} (f : S -> S) : st S unit := MkSt (fun s => (Ok tt, f s)).

(** [try: m except Exception as e: h(e)] *)
Definition try_catch {S A} (m : st S A) (h : exn -> st S A) : st S A :=
  MkSt (fun s =>
    match run_st m s with
    | (Raise e, s') => run_st (h e) s'
    | r => r
    end).

Notation "'do' x <- m ; k" := (bind m (fun x => k))
  (at level 200, x name, m at level 100, k at level 200).
Notation "m ;; k" := (bind m (fun _ => k)) (at level 100, right associativity).

(** ** app.schema (not in the source tree)

    Modelled from the spec: [Message] is a role, an optional text content,
    zero or more tool-call references and an optional media attachment;
    [ToolCall] is an id, a function name and an argument string;
    [Message.user_message], [assistant_message], [tool_message] and
    [from_tool_calls] build a message of that role with those fields.
    [AgentState] is IDLE, RUNNING or FINISHED; [ToolChoice] is NONE, AUTO or
    REQUIRED. *)

Inductive Role := RSystem | RUser | RAssistant | RTool.

Record ToolCall := MkToolCall {
  tc_id : pystr;
  fn_name : pystr;        (** [command.function.name]; "" when missing *)
  fn_arguments : pystr    (** [command.function.arguments] *)
}.

Record Message := MkMessage {
  role : Role;
  content : option pystr;
  msg_tool_calls : list ToolCall;
  msg_name : option pystr;
  tool_call_id : option pystr;
  base64_image : option pystr
}.

Definition user_message (c : pystr) : Message :=
  MkMessage RUser (Some c) [] None None None.
Definition assistant_message (c : pystr) : Message :=
  MkMessage RAssistant (Some c) [] None None None.
Definition from_tool_calls (c : pystr) (calls : list ToolCall) : Message :=
  MkMessage RAssistant (Some c) calls None None None.
Definition tool_message (c id name : pystr) (img : option pystr) : Message :=
  MkMessage RTool (Some c) [] (Some name) (Some id) img.

Inductive AgentState := IDLE | RUNNING | FINISHED.

Inductive ToolChoice := TC_NONE | TC_AUTO | TC_REQUIRED.

Definition AgentState_eqb (a b : AgentState) : bool :=
  match a, b with
  | IDLE, IDLE | RUNNING, RUNNING | FINISHED, FINISHED => true
  | _, _ => false
  end.

(** ** app.tool.base.ToolResult *)

(** [output: Any]: [None], a string, or another object, given by its
    truthiness and the name of its type. *)
Inductive PyOutput := Out_None | Out_Str (s : pystr) | Out_Obj (truthy : bool) (type_name : pystr).

Record ToolResult := MkToolResult {
  tr_output : PyOutput;
  tr_error : option pystr;
  tr_base64_image : option pystr;
  tr_system : option pystr
}.

Definition field_truthy (f : option pystr) : bool :=
  match f with Some s => nonempty s | None => false end.

Definition output_truthy (o : PyOutput) : bool :=
  match o with Out_None => false | Out_Str s => nonempty s | Out_Obj b _ => b end.

Definition output_type_name (o : PyOutput) : pystr :=
  match o with Out_None => lit "NoneType" | Out_Str _ => lit "str" | Out_Obj _ t => t end.

(** [__bool__]: [any(getattr(self, field) for field in self.__fields__)] *)
Definition result_truthy (r : ToolResult) : bool :=
  output_truthy (tr_output r) || field_truthy (tr_error r)
  || field_truthy (tr_base64_image r) || field_truthy (tr_system r).

(** [max_observe: Optional[Union[int, bool]]] *)
Inductive MaxObserve := MO_None | MO_Int (n : Z) | MO_Bool (b : bool).

(** [result[: k]] for an integer [k] (negative [k] drops from the end). *)
Definition py_slice_to (s : pystr) (k : Z) : pystr :=
  if (0 <=? k)%Z then take (Z.to_nat k) s
  else take (length s - Z.to_nat (- k)) s.

(** [if self.max_observe: result = result[: self.max_observe]] *)
Definition observe_limit (mo : MaxObserve) (r : pystr) : pystr :=
  match mo with
  | MO_None => r
  | MO_Int k => if (k =? 0)%Z then r else py_slice_to r k
  | MO_Bool b => if b then py_slice_to r 1 else r
  end.

(** The configuration fields of a [ToolCallAgent] (or of a subclass). *)
Record AgentConfig := MkAgentConfig {
  agent_name : pystr;
  next_step_prompt : pystr;                 (** "" when unset *)
  tool_choices : ToolChoice;
  tool_map_names : list pystr;              (** keys of [available_tools.tool_map] *)
  special_tool_names : list pystr;
  max_observe : MaxObserve;
  (** [_should_finish_execution]; the base class returns [True] *)
  should_finish_execution : pystr -> ToolResult -> bool
}.

(** The outcome of one tool invocation through [available_tools.execute]. *)
Inductive ToolOutcome := TO_Result (r : ToolResult) | TO_Raise (e : exn).

(** External behaviour: [json.loads] (an abstract JSON value, [None] for a
    [JSONDecodeError]) and the tools ([tool_invoke k name args] is the
    outcome of the [k]-th invocation of the agent). *)
Record ToolEnv (Json : Type) := MkToolEnv {
  json_loads : pystr -> option Json;
  tool_invoke : nat -> pystr -> Json -> ToolOutcome
}.
Arguments json_loads {Json} _ _.
Arguments tool_invoke {Json} _ _ _ _.

(** [str(result)]: [ToolResult.__str__] returns
    [f"Error: {self.error}" if self.error else self.output], and [str()]
    raises [TypeError] when that is not a string. *)
Definition tool_result_str {S} (r : ToolResult) : st S pystr :=
  if field_truthy (tr_error r) then ret (lit "Error: " ++ default [] (tr_error r))
  else match tr_output r with
       | Out_Str x => ret x
       | o => throw (Exn TypeError (lit "__str__ returned non-string (type "
                                    ++ output_type_name o ++ lit ")") None)
       end.

(** The mutable fields of the agent: [memory.messages], [state],
    [tool_calls], [_current_base64_image], and the count of tool
    invocations made so far. *)
Record Agent := MkAgent {
  messages : list Message;
  state : AgentState;
  tool_calls : list ToolCall;
  current_base64_image : option pystr;
  tool_ticks : nat
}.

Definition set_messages (ms : list Message) (a : Agent) : Agent :=
  MkAgent ms (state a) (tool_calls a) (current_base64_image a) (tool_ticks a).
Definition set_state (x : AgentState) (a : Agent) : Agent :=
  MkAgent (messages a) x (tool_calls a) (current_base64_image a) (tool_ticks a).
Definition set_tool_calls (cs : list ToolCall) (a : Agent) : Agent :=
  MkAgent (messages a) (state a) cs (current_base64_image a) (tool_ticks a).
Definition set_image (i : option pystr) (a : Agent) : Agent :=
  MkAgent (messages a) (state a) (tool_calls a) i (tool_ticks a).
Definition tick (a : Agent) : Agent :=
  MkAgent (messages a) (state a) (tool_calls a) (current_base64_image a) (S (tool_ticks a)).

Abbreviation AM := (st Agent).

(** [self.memory.add_message(m)] (the log is append-only, per the spec). *)
Definition add_message (m : Message) : AM unit :=
  modify (fun a => set_messages (messages a ++ [m]) a).

(** The outcome of [self.llm.ask_tool(...)]: a response (possibly [None])
    or an exception. *)
Record Response := MkResponse {
  resp_content : option pystr;
  resp_tool_calls : list ToolCall
}.

Inductive AskOutcome := Ask_Ok (r : option Response) | Ask_Raise (e : exn).

(** ** ToolCallAgent (app/agent/toolcall.py) *)

Definition TOOL_CALL_REQUIRED : pystr := lit "Tool calls required but none provided".

(** The warning sign of the generic tool error, U+26A0 U+FE0F. *)
Definition warning_sign : pystr := [9888%N; 65039%N].

Section ToolCallAgent.

Context {Json : Type}.
Variable cfg : AgentConfig.
Variable env : ToolEnv Json.

Definition choice_is_none : bool :=
  match tool_choices cfg with TC_NONE => true | _ => false end.
Definition choice_is_auto : bool :=
  match tool_choices cfg with TC_AUTO => true | _ => false end.
Definition choice_is_required : bool :=
  match tool_choices cfg with TC_REQUIRED => true | _ => false end.

(** [async def think(self) -> bool] *)
Definition think (o : AskOutcome) : AM bool :=
  (if nonempty (next_step_prompt cfg)
   then add_message (user_message (next_step_prompt cfg))
   else ret tt) ;;
  match o with
  | Ask_Raise e =>
      (* except ValueError: raise *)
      if is_value_error (exn_cls e) then throw e
      else
        match exn_cause e with
        | Some c =>
            match exn_cls c with
            | TokenLimitExceeded =>
                add_message (assistant_message
                  (lit "Maximum token limit reached, cannot continue execution: "
                   ++ exn_msg c)) ;;
                modify (set_state FINISHED) ;;
                ret false
            | _ => throw e
            end
        | None => throw e
        end
  | Ask_Ok response =>
      let calls := match response with Some r => resp_tool_calls r | None => [] end in
      let content := match response with
                     | Some r => match resp_content r with Some c => c | None => [] end
                     | None => []
                     end in
      modify (set_tool_calls calls) ;;
      match response with
      | None =>
          (* raise RuntimeError(...), caught by the [except Exception] *)
          add_message (assistant_message
            (lit "Error encountered while processing: "
             ++ lit "No response received from the LLM")) ;;
          ret false
      | Some _ =>
          if choice_is_none then
            (if nonempty content
             then add_message (assistant_message content) ;; ret true
             else ret false)
          else
            add_message (match calls with
                         | [] => assistant_message content
                         | _ => from_tool_calls content calls
                         end) ;;
            if choice_is_required && negb (nonempty_list calls) then ret true
            else if choice_is_auto && negb (nonempty_list calls) then ret (nonempty content)
            else ret (nonempty_list calls)
      end
  end.

(** [_is_special_tool]: [name.lower() in [n.lower() for n in special_tool_names]] *)
Definition is_special_tool (name : pystr) : bool :=
  bool_decide (lower name ∈ map lower (special_tool_names cfg)).

(** [_handle_special_tool] *)
Definition handle_special_tool (name : pystr) (result : ToolResult) : AM unit :=
  if negb (is_special_tool name) then ret tt
  else if should_finish_execution cfg name result then modify (set_state FINISHED)
  else ret tt.

(** [await self.available_tools.execute(name=name, tool_input=args)] *)
Definition invoke_tool (name : pystr) (args : Json) : AM ToolResult :=
  do a <- get ;
  modify tick ;;
  match tool_invoke env (tool_ticks a) name args with
  | TO_Result r => ret r
  | TO_Raise e => throw e
  end.

(** The two observation formats; [str(result)] is taken only for a truthy
    result. *)
Definition format_observation (name : pystr) (result : ToolResult) : AM pystr :=
  if result_truthy result
  then do text <- tool_result_str result ;
       ret (lit "Observed output of cmd `" ++ name ++ lit "` executed:" ++ nl ++ text)
  else ret (lit "Cmd `" ++ name ++ lit "` completed with no output").

Definition json_decode_error : exn :=
  Exn JSONDecodeError (lit "Expecting value") None.

(** [command.function.arguments or "{}"] *)
Definition arguments_or_default (command : ToolCall) : pystr :=
  if nonempty (fn_arguments command) then fn_arguments command else lit "{}".

(** [async def execute_tool(self, command: ToolCall) -> str] *)
Definition execute_tool (command : ToolCall) : AM pystr :=
  let name := fn_name command in
  if negb (nonempty name) then ret (lit "Error: Invalid command format")
  else if negb (bool_decide (name ∈ tool_map_names cfg))
  then ret (lit "Error: Unknown tool '" ++ name ++ lit "'")
  else
    try_catch
      (do args <- (match json_loads env (arguments_or_default command) with
                   | Some a => ret a
                   | None => throw json_decode_error
                   end) ;
       do result <- invoke_tool name args ;
       handle_special_tool name result ;;
       if field_truthy (tr_base64_image result) then
         modify (set_image (tr_base64_image result)) ;;
         format_observation name result
       else format_observation name result)
      (fun e =>
         match exn_cls e with
         | JSONDecodeError =>
             ret (lit "Error: " ++ lit "Error parsing arguments for " ++ name
                  ++ lit ": Invalid JSON format")
         | _ =>
             ret (lit "Error: " ++ warning_sign ++ lit " Tool '" ++ name
                  ++ lit "' encountered a problem: " ++ exn_msg e)
         end).

(** The body of the [for command in self.tool_calls] loop of [act]. *)
Fixpoint act_loop (commands : list ToolCall) : AM (list pystr) :=
  match commands with
  | [] => ret []
  | command :: rest =>
      modify (set_image None) ;;
      do result0 <- execute_tool command ;
      let result := observe_limit (max_observe cfg) result0 in
      do a <- get ;
      add_message (tool_message result (tc_id command) (fn_name command)
                     (current_base64_image a)) ;;
      do results <- act_loop rest ;
      ret (result :: results)
  end.

(** [async def act(self) -> str] *)
Definition act : AM pystr :=
  do a <- get ;
  match tool_calls a with
  | [] =>
      if choice_is_required then throw (Exn ValueError TOOL_CALL_REQUIRED None)
      else
        match last (messages a) with
        | None => throw (Exn IndexError (lit "list index out of range") None)
        | Some m =>
            ret (match content m with
                 | Some c => if nonempty c then c
                             else lit "No content or commands to execute"
                 | None => lit "No content or commands to execute"
                 end)
        end
  | calls =>
      do results <- act_loop calls ;
      ret (join (nl ++ nl) results)
  end.

(** [ReActAgent.step] (app/agent/react.py) *)
Definition step (o : AskOutcome) : AM pystr :=
  do should_act <- think o ;
  if negb should_act then ret (lit "Thinking complete - no action needed")
  else act.

End ToolCallAgent.

(** ** PlanStepStatus (app/flow/base.py) *)

Definition NOT_STARTED : pystr := lit "not_started".
Definition IN_PROGRESS : pystr := lit "in_progress".
Definition COMPLETED : pystr := lit "completed".
Definition BLOCKED : pystr := lit "blocked".

Definition get_all_statuses : list pystr := [NOT_STARTED; IN_PROGRESS; COMPLETED; BLOCKED].
Definition get_active_statuses : list pystr := [NOT_STARTED; IN_PROGRESS].

Definition is_active (s : pystr) : bool := bool_decide (s ∈ get_active_statuses).

(** [get_status_marks()[s]]; unknown statuses get the not-started mark, as
    in [status_marks.get(status, status_marks[NOT_STARTED])]. *)
Definition status_mark (s : pystr) : pystr :=
  if bool_decide (s = COMPLETED) then lit "[✓]"
  else if bool_decide (s = IN_PROGRESS) then lit "[→]"
  else if bool_decide (s = BLOCKED) then lit "[!]"
  else lit "[ ]".

(** ** Plans as stored in [planning_tool.plans]

    A plan is a dict; [title], [step_statuses] and [step_notes] may be
    missing keys ([None]), which the flow reads with [.get(key, default)]. *)
Record Plan := MkPlan {
  title : option pystr;
  steps : list pystr;
  step_statuses : option (list pystr);
  step_notes : option (list pystr)
}.

Definition set_statuses (l : list pystr) (p : Plan) : Plan :=
  MkPlan (title p) (steps p) (Some l) (step_notes p).

Definition statuses_of (p : Plan) : list pystr := default [] (step_statuses p).

(** The status the flow reads for step [i]: entries past the end of the
    array count as not started. *)
Definition status_at (sts : list pystr) (i : nat) : pystr :=
  match sts !! i with Some s => s | None => NOT_STARTED end.

(** [while len(l) < n: l.append(x)] *)
Definition pad_to {A} (x : A) (n : nat) (l : list A) : list A :=
  l ++ replicate (n - length l) x.

(** ** The type tag: [re.search(r"\[([A-Z_]+)\]", step)] then [.lower()] *)

Definition is_tag_char (c : N) : bool := (((65 <=? c) && (c <=? 90)) || (c =? 95))%N.

Fixpoint tag_run (l : pystr) : pystr * pystr :=
  match l with
  | c :: r => if is_tag_char c then let '(run, rest) := tag_run r in (c :: run, rest)
              else ([], l)
  | [] => ([], [])
  end.

(** Leftmost match: at a ['['], the greedy run of [A-Z_] must be non-empty
    and followed by [']'] (backtracking into the run cannot help, since
    [']'] is not in the class). *)
Fixpoint find_type_tag (l : pystr) : option pystr :=
  match l with
  | [] => None
  | c :: r =>
      if (c =? 91)%N then
        match tag_run r with
        | ((_ :: _) as run, d :: _) => if (d =? 93)%N then Some run else find_type_tag r
        | _ => find_type_tag r
        end
      else find_type_tag r
  end.

Record StepInfo := MkStepInfo { info_text : pystr; info_type : option pystr }.

Definition step_info_of (step : pystr) : StepInfo :=
  MkStepInfo step (option_map lower (find_type_tag step)).

(** [for i, step in enumerate(steps): ... if status in active: ...] *)
Fixpoint first_active_from (k : nat) (stps : list pystr) (sts : list pystr)
  : option (nat * pystr) :=
  match stps with
  | [] => None
  | s :: rest =>
      if is_active (status_at sts k) then Some (k, s)
      else first_active_from (S k) rest sts
  end.

Definition first_active (stps sts : list pystr) : option (nat * pystr) :=
  first_active_from 0 stps sts.

(** ** The planning flow's state and its external services *)

Record Flow := MkFlow {
  plans : gmap pystr Plan;               (** [planning_tool.plans] *)
  active_plan_id : pystr;
  current_step_index : option nat;
  agents : gmap pystr AgentState;        (** [self.agents], by their states *)
  primary_agent_key : option pystr;
  executor_keys : list pystr;
  flow_ticks : nat                       (** external calls made so far *)
}.

Definition set_plans (ps : gmap pystr Plan) (f : Flow) : Flow :=
  MkFlow ps (active_plan_id f) (current_step_index f) (agents f)
    (primary_agent_key f) (executor_keys f) (flow_ticks f).
Definition set_current (i : option nat) (f : Flow) : Flow :=
  MkFlow (plans f) (active_plan_id f) i (agents f)
    (primary_agent_key f) (executor_keys f) (flow_ticks f).
Definition set_agents (ags : gmap pystr AgentState) (f : Flow) : Flow :=
  MkFlow (plans f) (active_plan_id f) (current_step_index f) ags
    (primary_agent_key f) (executor_keys f) (flow_ticks f).
Definition ftick (f : Flow) : Flow :=
  MkFlow (plans f) (active_plan_id f) (current_step_index f) (agents f)
    (primary_agent_key f) (executor_keys f) (S (flow_ticks f)).

Abbreviation FM := (st Flow).

(** The outcome of [executor.run(prompt)]: its result or exception, with
    the executor's state afterwards. *)
Inductive RunOutcome :=
| Run_Ok (r : pystr) (after : AgentState)
| Run_Raise (e : exn) (after : AgentState).

Inductive LlmOutcome := Llm_Ok (r : pystr) | Llm_Raise (e : exn).

Inductive PlanningOutcome := PO_Ok (ps : gmap pystr Plan) | PO_Raise (e : exn).

(** External behaviour seen by the flow; [k] is the index of the call. *)
Record FlowEnv (Json : Type) := MkFlowEnv {
  store_up : nat -> bool;                     (** the plan store answers call k *)
  store_get_text : nat -> Plan -> pystr;      (** the store's [get] rendering *)
  plan_ask : nat -> pystr -> AskOutcome;      (** [llm.ask_tool] for the plan *)
  flow_json_loads : pystr -> option Json;
  (** [args["plan_id"] = id] then [planning_tool.execute] with [args] as keywords *)
  planning_execute : nat -> Json -> pystr -> gmap pystr Plan -> PlanningOutcome;
  executor_run : nat -> pystr -> pystr -> RunOutcome;   (** agent key, prompt *)
  summary_ask : nat -> pystr -> LlmOutcome;             (** [llm.ask] *)
  fmt_progress : nat -> nat -> pystr                    (** [f"{progress:.1f}"] *)
}.
Arguments store_up {Json} _ _.
Arguments store_get_text {Json} _ _ _.
Arguments plan_ask {Json} _ _ _.
Arguments flow_json_loads {Json} _ _.
Arguments planning_execute {Json} _ _ _ _ _.
Arguments executor_run {Json} _ _ _ _.
Arguments summary_ask {Json} _ _ _.
Arguments fmt_progress {Json} _ _ _.

Definition store_unavailable : exn :=
  Exn OtherError (lit "plan store unavailable") None.

Section PlanningFlow.

Context {Json : Type}.
Variable fenv : FlowEnv Json.

(** One external call: it reads the call index and advances it. *)
Definition next_call : FM nat :=
  do f <- get ; modify ftick ;; ret (flow_ticks f).

Definition update_plan (pid : pystr) (g : Plan -> Plan) (f : Flow) : Flow :=
  match plans f !! pid with
  | Some p => set_plans (<[pid := g p]> (plans f)) f
  | None => f
  end.

(** *** The plan store (app/tool/planning.py, not in the source tree)

    Modelled from the spec: [mark_step(plan_id, step_index, status)] sets
    the status of that step; an index outside the status array raises (list
    assignment), a missing plan gives an error result, and any call may raise
    when the store is unavailable ([store_up]). *)
Definition store_mark_step (i : nat) (s : pystr) : FM unit :=
  do k <- next_call ;
  if negb (store_up fenv k) then throw store_unavailable
  else
    do f <- get ;
    match plans f !! active_plan_id f with
    | None => ret tt
    | Some p =>
        match step_statuses p with
        | None => throw (Exn KeyError (lit "'step_statuses'") None)
        | Some l =>
            if bool_decide (i < length l)
            then modify (update_plan (active_plan_id f) (set_statuses (<[i := s]> l)))
            else throw (Exn IndexError (lit "list assignment index out of range") None)
        end
    end.

(** Modelled from the spec: [get(plan_id)] returns the rendered plan, or a
    descriptive error for a missing plan; it may raise when unavailable. *)
Definition store_get (pid : pystr) : FM pystr :=
  do k <- next_call ;
  if negb (store_up fenv k) then throw store_unavailable
  else
    do f <- get ;
    match plans f !! pid with
    | Some p => ret (store_get_text fenv k p)
    | None => ret (lit "Error: No plan found with ID: " ++ pid)
    end.

(** Modelled from the spec: [create(plan_id, title, steps)] stores a plan
    whose statuses are all not_started and whose notes are empty. *)
Definition store_create (pid ttl : pystr) (stps : list pystr) : FM unit :=
  do k <- next_call ;
  if negb (store_up fenv k) then throw store_unavailable
  else modify (fun f => set_plans (<[pid := MkPlan (Some ttl) stps
                                       (Some (replicate (length stps) NOT_STARTED))
                                       (Some (replicate (length stps) []))]> (plans f)) f).

(** *** [_get_current_step_info] *)

(** The [except] branch after a failed [mark_step(..., IN_PROGRESS)]. *)
Definition in_progress_fallback (i : nat) (sts : list pystr) : list pystr :=
  if bool_decide (i < length sts) then <[i := IN_PROGRESS]> sts
  else pad_to NOT_STARTED i sts ++ [IN_PROGRESS].

Definition get_current_step_info : FM (option (nat * StepInfo)) :=
  do f <- get ;
  let pid := active_plan_id f in
  if negb (nonempty pid) then ret None
  else
    match plans f !! pid with
    | None => ret None
    | Some plan_data =>
        try_catch
          (let sts := statuses_of plan_data in
           match first_active (steps plan_data) sts with
           | None => ret None
           | Some (i, stp) =>
               try_catch (store_mark_step i IN_PROGRESS)
                 (fun _ => modify (update_plan pid
                             (set_statuses (in_progress_fallback i sts)))) ;;
               ret (Some (i, step_info_of stp))
           end)
          (fun _ => ret None)
    end.

(** *** [_mark_step_completed] *)

(** The [except] branch after a failed [mark_step(..., COMPLETED)]. *)
Definition completed_fallback (i : nat) (sts : list pystr) : list pystr :=
  <[i := COMPLETED]> (pad_to NOT_STARTED (S i) sts).

Definition mark_step_completed : FM unit :=
  do f <- get ;
  match current_step_index f with
  | None => ret tt
  | Some i =>
      try_catch (store_mark_step i COMPLETED)
        (fun _ =>
           do f' <- get ;
           match plans f' !! active_plan_id f' with
           | Some plan_data =>
               modify (update_plan (active_plan_id f')
                         (set_statuses (completed_fallback i (statuses_of plan_data))))
           | None => ret tt
           end)
  end.

(** *** [_generate_plan_text_from_storage] and [_get_plan_text] *)

Definition count_status (s : pystr) (sts : list pystr) : nat :=
  length (filter (fun x => x = s) sts).

Fixpoint step_lines (i : nat) (stps sts notes : list pystr) : pystr :=
  match stps, sts, notes with
  | stp :: stps', st0 :: sts', nt :: notes' =>
      show_nat i ++ lit ". " ++ status_mark st0 ++ lit " " ++ stp ++ nl
      ++ (if nonempty nt then lit "   Notes: " ++ nt ++ nl else [])
      ++ step_lines (S i) stps' sts' notes'
  | _, _, _ => []
  end.

(** The padding of the local lists is written back to the stored plan only
    when the key was present: the local list then aliases the stored one. *)
Definition pad_stored (p : Plan) : Plan :=
  let n := length (steps p) in
  MkPlan (title p) (steps p)
    (option_map (pad_to NOT_STARTED n) (step_statuses p))
    (option_map (pad_to [] n) (step_notes p)).

Definition generate_plan_text_from_storage : FM pystr :=
  do f <- get ;
  let pid := active_plan_id f in
  match plans f !! pid with
  | None => ret (lit "Error: Plan with ID " ++ pid ++ lit " not found")
  | Some plan_data =>
      let ttl := default (lit "Untitled Plan") (title plan_data) in
      let stps := steps plan_data in
      let sts := pad_to NOT_STARTED (length stps) (statuses_of plan_data) in
      let notes := pad_to [] (length stps) (default [] (step_notes plan_data)) in
      modify (update_plan pid pad_stored) ;;
      let completed := count_status COMPLETED sts in
      let total := length stps in
      let head := lit "Plan: " ++ ttl ++ lit " (ID: " ++ pid ++ lit ")" ++ nl in
      ret (head ++ replicate (length head) 61%N ++ nl ++ nl
           ++ lit "Progress: " ++ show_nat completed ++ lit "/" ++ show_nat total
           ++ lit " steps completed (" ++ fmt_progress fenv completed total
           ++ lit "%)" ++ nl
           ++ lit "Status: " ++ show_nat completed ++ lit " completed, "
           ++ show_nat (count_status IN_PROGRESS sts) ++ lit " in progress, "
           ++ show_nat (count_status BLOCKED sts) ++ lit " blocked, "
           ++ show_nat (count_status NOT_STARTED sts) ++ lit " not started" ++ nl ++ nl
           ++ lit "Steps:" ++ nl
           ++ step_lines 0 stps sts notes)
  end.

Definition get_plan_text : FM pystr :=
  do f <- get ;
  try_catch (store_get (active_plan_id f)) (fun _ => generate_plan_text_from_storage).

(** *** [_create_initial_plan] *)

Definition PLANNING : pystr := lit "planning".

(** [f"Plan for: {request[:50]}{'...' if len(request) > 50 else ''}"] *)
Definition default_title (request : pystr) : pystr :=
  lit "Plan for: " ++ take 50 request
  ++ (if bool_decide (50 < length request) then lit "..." else []).

Definition default_steps : list pystr :=
  [lit "Analyze request"; lit "Execute task"; lit "Verify results"].

(** [for tool_call in response.tool_calls: if name == "planning": ...] *)
Fixpoint planning_calls (calls : list ToolCall) : FM bool :=
  match calls with
  | [] => ret false
  | c :: rest =>
      if bool_decide (fn_name c = PLANNING) then
        match flow_json_loads fenv (fn_arguments c) with
        | None => planning_calls rest                (* continue *)
        | Some args =>
            do k <- next_call ;
            do f <- get ;
            match planning_execute fenv k args (active_plan_id f) (plans f) with
            | PO_Ok ps => modify (set_plans ps) ;; ret true      (* return *)
            | PO_Raise e => throw e
            end
        end
      else planning_calls rest
  end.

Definition create_initial_plan (request : pystr) : FM unit :=
  do k <- next_call ;
  match plan_ask fenv k request with
  | Ask_Raise e => throw e
  | Ask_Ok None =>
      throw (Exn AttributeError
               (lit "'NoneType' object has no attribute 'tool_calls'") None)
  | Ask_Ok (Some response) =>
      do done <- planning_calls (resp_tool_calls response) ;
      if done then ret tt
      else
        do f <- get ;
        store_create (active_plan_id f) (default_title request) default_steps
  end.

(** *** [get_executor] *)

Definition primary_agent (f : Flow) : option pystr :=
  match primary_agent_key f with
  | Some k => if bool_decide (is_Some (agents f !! k)) then Some k else None
  | None => None
  end.

Definition get_executor (step_type : option pystr) : FM (option pystr) :=
  do f <- get ;
  let has k := bool_decide (is_Some (agents f !! k)) in
  match step_type with
  | Some t => if nonempty t && has t then ret (Some t) else
              ret (match list_find (fun k => is_Some (agents f !! k)) (executor_keys f) with
                   | Some (_, k) => Some k
                   | None => primary_agent f
                   end)
  | None =>
      ret (match list_find (fun k => is_Some (agents f !! k)) (executor_keys f) with
           | Some (_, k) => Some k
           | None => primary_agent f
           end)
  end.

(** [await agent.run(prompt)]; the agent's state afterwards is recorded.  A
    missing agent ([None]) has no [run] attribute. *)
Definition run_agent (ex : option pystr) (prompt : pystr) : FM pystr :=
  match ex with
  | None => throw (Exn AttributeError (lit "'NoneType' object has no attribute 'run'") None)
  | Some key =>
      do k <- next_call ;
      match executor_run fenv k key prompt with
      | Run_Ok r after => modify (fun f => set_agents (<[key := after]> (agents f)) f) ;; ret r
      | Run_Raise e after =>
          modify (fun f => set_agents (<[key := after]> (agents f)) f) ;; throw e
      end
  end.

(** [str(self.current_step_index)] *)
Definition show_index (i : option nat) : pystr :=
  match i with Some n => show_nat n | None => lit "None" end.

(** *** [_execute_step]; the prompt keeps the f-string's lines, without
    the source indentation. *)
Definition execute_step (ex : option pystr) (info : StepInfo) : FM pystr :=
  do plan_status <- get_plan_text ;
  do f <- get ;
  let idx := current_step_index f in
  let step_text := info_text info in
  let step_prompt :=
    nl ++ lit "CURRENT PLAN STATUS:" ++ nl ++ plan_status ++ nl ++ nl
    ++ lit "YOUR CURRENT TASK:" ++ nl
    ++ lit "You are now working on step " ++ show_index idx ++ lit ": " ++ dq ++ step_text
    ++ dq ++ nl ++ nl
    ++ lit "Please execute this step using the appropriate tools. When you're done, provide a summary of what you accomplished."
    ++ nl in
  try_catch
    (do step_result <- run_agent ex step_prompt ;
     mark_step_completed ;;
     ret step_result)
    (fun e => ret (lit "Error executing step " ++ show_index idx ++ lit ": " ++ exn_msg e)).

(** *** [_finalize_plan] *)
Definition finalize_plan : FM pystr :=
  do plan_text <- get_plan_text ;
  let summary_prompt :=
    lit "The plan has been completed. Here is the final plan status:" ++ nl ++ nl
    ++ plan_text ++ nl ++ nl
    ++ lit "Please provide a summary of what was accomplished and any final thoughts." in
  try_catch
    (do k <- next_call ;
     match summary_ask fenv k summary_prompt with
     | Llm_Ok r => ret (lit "Plan completed:" ++ nl ++ nl ++ r)
     | Llm_Raise e => throw e
     end)
    (fun _ =>
       try_catch
         (do f <- get ;
          do summary <- run_agent (primary_agent f) summary_prompt ;
          ret (lit "Plan completed:" ++ nl ++ nl ++ summary))
         (fun _ => ret (lit "Plan completed. Error generating summary."))).

(** *** [execute] *)

(** [hasattr(executor, "state") and executor.state == AgentState.FINISHED] *)
Definition executor_finished (f : Flow) (ex : option pystr) : bool :=
  match ex with
  | Some k => match agents f !! k with Some FINISHED => true | _ => false end
  | None => false
  end.

(** One pass of the [while True] body: [(stop, result)]. *)
Definition loop_iteration (result : pystr) : FM (bool * pystr) :=
  do r <- get_current_step_info ;
  modify (set_current (option_map fst r)) ;;
  match r with
  | None =>
      do fin <- finalize_plan ;
      ret (true, result ++ fin)
  | Some (_, info) =>
      do ex <- get_executor (info_type info) ;
      do step_result <- execute_step ex info ;
      let result' := result ++ step_result ++ nl in
      do f <- get ;
      ret (executor_finished f ex, result')
  end.

Fixpoint execute_loop (fuel : nat) (result : pystr) : FM pystr :=
  match fuel with
  | O => MkSt (fun f => (Diverge, f))
  | S fuel' =>
      do r <- loop_iteration result ;
      let '(stop, result') := r in
      if stop then ret result' else execute_loop fuel' result'
  end.

Definition NO_PRIMARY_AGENT : pystr := lit "没有可用的主代理".

(** The body of the [try] block of [execute]. *)
Definition execute_body (fuel : nat) (input_text : pystr) : FM pystr :=
  do f <- get ;
  match primary_agent f with
  | None => throw (Exn ValueError NO_PRIMARY_AGENT None)
  | Some _ =>
      do created <-
        (if nonempty input_text then
           create_initial_plan input_text ;;
           do f' <- get ;
           ret (bool_decide (is_Some (plans f' !! active_plan_id f')))
         else ret true) ;
      if created then execute_loop fuel []
      else ret (lit "为: " ++ input_text ++ lit " 创建计划失败")
  end.

Definition execute (fuel : nat) (input_text : pystr) : FM pystr :=
  try_catch (execute_body fuel input_text)
    (fun e => ret (lit "Execution failed: " ++ exn_msg e)).

End PlanningFlow.

(** ** Building a flow (app/flow/base.py, app/flow/planning.py,
    app/flow/flow_factory.py) *)

(** The [agents] argument of [BaseFlow.__init__]: one agent, a list of
    agents, or a dict given by its items in order (so its keys are
    distinct). Agents are represented by their states. *)
Inductive AgentsArg :=
| AgentsOne (a : AgentState)
| AgentsList (l : list AgentState)
| AgentsDict (d : list (pystr * AgentState)).

(** [agents_dict] of [BaseFlow.__init__], as its items in order. *)
Definition agents_dict (arg : AgentsArg) : list (pystr * AgentState) :=
  match arg with
  | AgentsOne a => [(lit "default", a)]
  | AgentsList l => imap (fun i a => (lit "agent_" ++ show_nat i, a)) l
  | AgentsDict d => d
  end.

(** [primary_key = data.get("primary_agent_key")]; [if not primary_key and
    agents_dict: primary_key = next(iter(agents_dict))]. *)
Definition init_primary_key (given : option pystr) (d : list (pystr * AgentState))
  : option pystr :=
  match d with
  | (k, _) :: _ => if field_truthy given then given else Some k
  | [] => given
  end.

(** The keyword arguments of [PlanningFlow.__init__] the flow reads:
    [executors], [plan_id], [primary_agent_key], and the plans of the
    planning tool (a given one's, or a new one's). *)
Record FlowArgs := MkFlowArgs {
  arg_executors : option (list pystr);
  arg_plan_id : option pystr;
  arg_primary_agent_key : option pystr;
  arg_plans : gmap pystr Plan
}.

(** [PlanningFlow(agents, **data)] at time [now] (seconds since the epoch,
    for the default [f"plan_{int(time.time())}"]). *)
Definition planning_flow_init (agents_arg : AgentsArg) (args : FlowArgs) (now : nat) : Flow :=
  let d := agents_dict agents_arg in
  let execs := default [] (arg_executors args) in
  MkFlow (arg_plans args)
    (match arg_plan_id args with Some pid => pid | None => lit "plan_" ++ show_nat now end)
    None
    (list_to_map d)
    (init_primary_key (arg_primary_agent_key args) d)
    (if nonempty_list execs then execs else map fst d)
    0.

(** [FlowFactory.create_flow]: [flows = {FlowType.PLANNING: PlanningFlow}];
    [FlowType] is a [str] enum, so its key is the string "planning". *)
Definition create_flow (flow_type : pystr) (agents_arg : AgentsArg) (args : FlowArgs)
    (now : nat) : res Flow :=
  if bool_decide (flow_type = PLANNING) then Ok (planning_flow_init agents_arg args now)
  else Raise (Exn ValueError (lit "未知的流程类型: " ++ flow_type) None).

(** ** The command line (app/main.py) *)

Record CliArgs := MkCliArgs {
  cli_agent_type : pystr;
  cli_input_image : option pystr;
  cli_project_name : option pystr
}.

Definition cli_default : CliArgs := MkCliArgs (lit "manus") None None.

(** The [while i < len(args)] loop of [main]: [None] when a flag has no
    value ([logger.error(...); return]). *)
Fixpoint parse_cli (args : list pystr) (c : CliArgs) : option CliArgs :=
  match args with
  | [] => Some c
  | x :: rest =>
      if bool_decide (x = lit "--agent") then
        match rest with
        | v :: rest' => parse_cli rest' (MkCliArgs v (cli_input_image c) (cli_project_name c))
        | [] => None
        end
      else if bool_decide (x = lit "--image") then
        match rest with
        | v :: rest' => parse_cli rest' (MkCliArgs (cli_agent_type c) (Some v) (cli_project_name c))
        | [] => None
        end
      else if bool_decide (x = lit "--project") then
        match rest with
        | v :: rest' => parse_cli rest' (MkCliArgs (cli_agent_type c) (cli_input_image c) (Some v))
        | [] => None
        end
      else parse_cli rest c
  end.

Inductive AgentKind := PipelineKind | PlanningKind | ManusKind.

(** [if agent_type == "pipeline" and input_image: ... elif agent_type ==
    "planning": ... else: ...] *)
Definition select_agent (c : CliArgs) : AgentKind :=
  if bool_decide (cli_agent_type c = lit "pipeline") && field_truthy (cli_input_image c)
  then PipelineKind
  else if bool_decide (cli_agent_type c = lit "planning") then PlanningKind
  else ManusKind.

(** [main(sys.argv[1:])]: the agent it runs and the parsed arguments, or
    [None] when it returns without running one. *)
Definition cli_main (argv : list pystr) : option (AgentKind * CliArgs) :=
  option_map (fun c => (select_agent c, c)) (parse_cli argv cli_default).

(** The flags [main] reads; each takes the next argument as its value. *)
Definition cli_flags : list pystr := [lit "--agent"; lit "--image"; lit "--project"].

(** ** String helpers for the pipeline agent *)

Fixpoint is_prefix (p s : pystr) : bool :=
  match p, s with
  | [], _ => true
  | x :: p', y :: s' => (x =? y)%N && is_prefix p' s'
  | _ :: _, [] => false
  end.

(** [p in s] *)
Fixpoint py_in (p s : pystr) : bool :=
  is_prefix p s || match s with [] => false | _ :: s' => py_in p s' end.

(** [s.split(sep)] for a non-empty [sep]: the pieces between the
    non-overlapping occurrences of [sep], scanned from the left. Every round
    consumes a character, so the fuel [length s + 1] never runs out. *)
Fixpoint split_from (sep : pystr) (fuel : nat) (s cur : pystr) : list pystr :=
  match fuel with
  | O => [rev cur ++ s]
  | S fuel' =>
      match s with
      | [] => [rev cur]
      | c :: s' =>
          if is_prefix sep s then rev cur :: split_from sep fuel' (drop (length sep) s) []
          else split_from sep fuel' s' (c :: cur)
      end
  end.

Definition py_split (sep s : pystr) : list pystr := split_from sep (S (length s)) s [].

(** [str.isspace] on one code point. *)
Definition py_isspace (c : N) : bool :=
  (((9 <=? c) && (c <=? 13)) || ((28 <=? c) && (c <=? 32)) || (c =? 133) || (c =? 160)
   || (c =? 5760) || ((8192 <=? c) && (c <=? 8202)) || (c =? 8232) || (c =? 8233)
   || (c =? 8239) || (c =? 8287) || (c =? 12288))%N.

Fixpoint lstrip (s : pystr) : pystr :=
  match s with
  | c :: s' => if py_isspace c then lstrip s' else s
  | [] => []
  end.

(** [s.strip()] *)
Definition py_strip (s : pystr) : pystr := rev (lstrip (rev (lstrip s))).

(** ** PipelineAgent (app/agent/pipeline_agent.py) *)

(** Modelled from the spec, as the other [Message] constructors. *)
Definition system_message (c : pystr) : Message :=
  MkMessage RSystem (Some c) [] None None None.

(** The agent's fields: the [ToolCallAgent] part, [pipeline_status] and
    [output_files], both dicts given by their items in order. *)
Record PAgent := MkPAgent {
  p_base : Agent;
  pipeline_status : list (pystr * pystr);
  output_files : list (pystr * option pystr)
}.

Abbreviation PM := (st PAgent).

(** A method of the [ToolCallAgent] part, run on a [PipelineAgent]. *)
Definition on_base {A} (m : AM A) : PM A :=
  MkSt (fun p => let '(r, a) := run_st m (p_base p) in
                 (r, MkPAgent a (pipeline_status p) (output_files p))).

(** [d.get(k)] and [d[k] = v] on a dict given by its items in order. *)
Fixpoint dict_get {V} (k : pystr) (d : list (pystr * V)) : option V :=
  match d with
  | [] => None
  | (k', v) :: d' => if bool_decide (k = k') then Some v else dict_get k d'
  end.

Fixpoint dict_set {V} (k : pystr) (v : V) (d : list (pystr * V)) : list (pystr * V) :=
  match d with
  | [] => [(k, v)]
  | (k', v') :: d' => if bool_decide (k = k') then (k, v) :: d' else (k', v') :: dict_set k v d'
  end.

Definition WIREFRAME_GENERATION : pystr := lit "wireframe_generation".
Definition HTML_CREATION : pystr := lit "html_creation".
Definition API_DOC_GENERATION : pystr := lit "api_doc_generation".
Definition FRONTEND_GENERATION : pystr := lit "frontend_generation".
Definition BACKEND_GENERATION : pystr := lit "backend_generation".
Definition STATUS_KEY : pystr := lit "status".
Definition PENDING : pystr := lit "pending".
Definition FAILED : pystr := lit "failed".

Definition tracked_steps : list pystr :=
  [WIREFRAME_GENERATION; HTML_CREATION; API_DOC_GENERATION; FRONTEND_GENERATION;
   BACKEND_GENERATION].

(** The overall status [update_pipeline_status] computes from the entries
    other than "status". *)
Definition overall_status (ps : list (pystr * pystr)) : pystr :=
  let tracked := filter (fun kv : pystr * pystr => kv.1 <> STATUS_KEY) ps in
  if forallb (fun kv : pystr * pystr => bool_decide (kv.2 = COMPLETED)) tracked then COMPLETED
  else if existsb (fun kv : pystr * pystr => bool_decide (kv.2 = FAILED)) tracked then FAILED
  else IN_PROGRESS.

Definition SAVED_TO : pystr := lit "保存到:".

(** [output.split("保存到:")[-1].strip()] *)
Definition saved_path (output : pystr) : pystr :=
  py_strip (default [] (last (py_split SAVED_TO output))).

(** The output paths [update_pipeline_status] records for a step. *)
Definition record_output (stp output : pystr) (files : list (pystr * option pystr))
  : list (pystr * option pystr) :=
  if bool_decide (stp = WIREFRAME_GENERATION) then
    dict_set (lit "wireframe_desc") (Some output) files
  else if bool_decide (stp = HTML_CREATION) then
    (if py_in SAVED_TO output then dict_set (lit "html_path") (Some (saved_path output)) files
     else files)
  else if bool_decide (stp = API_DOC_GENERATION) then
    (if py_in SAVED_TO output then dict_set (lit "api_doc_path") (Some (saved_path output)) files
     else files)
  else if bool_decide (stp = FRONTEND_GENERATION) then
    (if py_in SAVED_TO output
     then dict_set (lit "frontend_path") (Some (hd [] (py_split nl (saved_path output)))) files
     else files)
  else if bool_decide (stp = BACKEND_GENERATION) then
    (if py_in SAVED_TO output
     then dict_set (lit "backend_path") (Some (hd [] (py_split nl (saved_path output)))) files
     else files)
  else files.

(** [async def update_pipeline_status(self, step, status, output=None)] *)
Definition update_pipeline_status (stp status : pystr) (output : option pystr) : PM unit :=
  modify (fun p =>
    let ps := pipeline_status p in
    let '(ps1, files1) :=
      if bool_decide (is_Some (dict_get stp ps)) then
        (dict_set stp status ps,
         if field_truthy output && bool_decide (stp ∈ tracked_steps)
         then record_output stp (default [] output) (output_files p)
         else output_files p)
      else (ps, output_files p) in
    MkPAgent (p_base p) (dict_set STATUS_KEY (overall_status ps1) ps1) files1).

(** [self.output_files.get(k)] *)
Definition files_get (k : pystr) (files : list (pystr * option pystr)) : option pystr :=
  match dict_get k files with Some v => v | None => None end.

(** [command.function.arguments] is a string: assigning to a key of it
    raises. *)
Definition item_assignment_error : exn :=
  Exn TypeError (lit "'str' object does not support item assignment") None.

(** The argument enhancement at the start of [execute_tool]. *)
Definition enhance_arguments (command : ToolCall) : PM unit :=
  do p <- get ;
  let name := fn_name command in
  let args := fn_arguments command in
  if bool_decide (name = lit "html_to_api_doc") && negb (py_in (lit "description_text") args) then
    (if field_truthy (files_get (lit "description_text") (output_files p))
     then throw item_assignment_error else ret tt)
  else if bool_decide (name = lit "html_to_springboot") && negb (py_in (lit "package_name") args) then
    (if field_truthy (files_get (lit "package_name") (output_files p))
     then throw item_assignment_error else ret tt)
  else ret tt.

(** The pipeline step a tool's run updates. *)
Definition step_of_tool (name : pystr) : option pystr :=
  if bool_decide (name = lit "wireframe_generator") then Some WIREFRAME_GENERATION
  else if bool_decide (name = lit "wireframe_html") then Some HTML_CREATION
  else if bool_decide (name = lit "html_to_api_doc") then Some API_DOC_GENERATION
  else if bool_decide (name = lit "html_to_vue") then Some FRONTEND_GENERATION
  else if bool_decide (name = lit "html_to_springboot") then Some BACKEND_GENERATION
  else None.

(** [success = "Error:" not in result and "错误:" not in result and "失败:"
    not in result] *)
Definition reports_success (result : pystr) : bool :=
  negb (py_in (lit "Error:") result) && negb (py_in (lit "错误:") result)
  && negb (py_in (lit "失败:") result).

Section PipelineAgent.

Context {Json : Type}.
Variable cfg : AgentConfig.
Variable env : ToolEnv Json.

(** [PipelineAgent.execute_tool] *)
Definition pipeline_execute_tool (command : ToolCall) : PM pystr :=
  let tool_name := fn_name command in
  enhance_arguments command ;;
  (match step_of_tool tool_name with
   | Some s => update_pipeline_status s IN_PROGRESS None
   | None => ret tt
   end) ;;
  do result <- on_base (execute_tool cfg env command) ;
  let status := if reports_success result then COMPLETED else FAILED in
  (match step_of_tool tool_name with
   | Some s => update_pipeline_status s status (Some result)
   | None => ret tt
   end) ;;
  ret result.

End PipelineAgent.

(** [str(x)] for an optional string. *)
Definition py_str_opt (o : option pystr) : pystr :=
  match o with Some s => s | None => lit "None" end.

(** [x or d] for an optional string. *)
Definition or_default (o : option pystr) (d : pystr) : pystr :=
  if field_truthy o then default [] o else d.

Definition initial_pipeline_status : list (pystr * pystr) :=
  [(WIREFRAME_GENERATION, PENDING); (HTML_CREATION, PENDING); (API_DOC_GENERATION, PENDING);
   (FRONTEND_GENERATION, PENDING); (BACKEND_GENERATION, PENDING);
   (STATUS_KEY, lit "initialized")].

Definition initial_output_files (img project desc pkg : option pystr)
  : list (pystr * option pystr) :=
  [(lit "image_path", img); (lit "wireframe_desc", Some []); (lit "html_path", Some []);
   (lit "api_doc_path", Some []); (lit "frontend_path", Some []); (lit "backend_path", Some []);
   (lit "project_name", Some (or_default project (lit "auto_generated_project")));
   (lit "description_text", Some (or_default desc []));
   (lit "package_name", Some (or_default pkg (lit "com.demo")))].

Definition init_message (img project desc pkg : option pystr) : pystr :=
  lit "请使用图像路径 '" ++ py_str_opt img
  ++ lit "' 执行完整的从UI设计到代码生成的流程，项目名称为 '"
  ++ or_default project (lit "auto_generated_project") ++ lit "'。"
  ++ (if field_truthy desc then nl ++ nl ++ lit "项目描述：" ++ nl ++ default [] desc else [])
  ++ (if field_truthy pkg && negb (bool_decide (pkg = Some (lit "com.demo")))
      then nl ++ nl ++ lit "后端项目使用包名：" ++ default [] pkg else []).

(** [PipelineAgent.initialize] *)
Definition pipeline_initialize (system_prompt : pystr) (img project desc pkg : option pystr)
  : PM unit :=
  modify (fun p => MkPAgent (p_base p) initial_pipeline_status
                     (initial_output_files img project desc pkg)) ;;
  on_base (add_message (system_message system_prompt)) ;;
  on_base (add_message (user_message (init_message img project desc pkg))).

(** ** Vocabulary of the statements *)

(** The messages [think] logs before it calls the language model. *)
Definition prompt_messages (cfg : AgentConfig) : list Message :=
  if nonempty (next_step_prompt cfg) then [user_message (next_step_prompt cfg)] else [].

(** The failure [think] handles itself: not a [ValueError], and caused by a
    [TokenLimitExceeded]. *)
Definition token_limit_failure (e : exn) : bool :=
  negb (is_value_error (exn_cls e))
  && match exn_cause e with
     | Some c => match exn_cls c with TokenLimitExceeded => true | _ => false end
     | None => false
     end.

Definition NO_CONTENT : pystr := lit "No content or commands to execute".

(** The delivery order the spec gives for [act]: for each call in turn, the
    captured media is cleared, the call is executed, its observation is
    truncated, and one tool message carrying the observation, the call id,
    the tool name and the media captured during that call is appended. *)
Inductive delivers {Json} (cfg : AgentConfig) (env : ToolEnv Json)
  : Agent -> list ToolCall -> list Message -> list pystr -> Agent -> Prop :=
| delivers_nil a : delivers cfg env a [] [] [] a
| delivers_cons a c cs obs a1 ms outs a2 :
    run_st (execute_tool cfg env c) (set_image None a) = (Ok obs, a1) ->
    messages a1 = messages a ->
    (current_base64_image a1 = None
     \/ exists x r, tool_invoke env (tool_ticks a) (fn_name c) x = TO_Result r
                   /\ current_base64_image a1 = tr_base64_image r) ->
    delivers cfg env
      (set_messages (messages a1 ++ [tool_message (observe_limit (max_observe cfg) obs)
                                       (tc_id c) (fn_name c) (current_base64_image a1)]) a1)
      cs ms outs a2 ->
    delivers cfg env a (c :: cs)
      (tool_message (observe_limit (max_observe cfg) obs) (tc_id c) (fn_name c)
         (current_base64_image a1) :: ms)
      (observe_limit (max_observe cfg) obs :: outs) a2.

(** ** Sample inputs for the witnesses and counterexamples *)

Definition sample_cfg (choice : ToolChoice) (mo : MaxObserve) : AgentConfig :=
  MkAgentConfig (lit "toolcall") (lit "Choose the next step.") choice
    [lit "terminate"; lit "bash"] [lit "terminate"] mo (fun _ _ => true).

(** [json.loads] accepting "{}" only; every tool answers with its name. *)
Definition sample_env : ToolEnv unit :=
  MkToolEnv unit
    (fun s => if bool_decide (s = lit "{}") then Some tt else None)
    (fun _ name _ => TO_Result (MkToolResult (Out_Str name) None None None)).

Definition sample_agent (calls : list ToolCall) (log : list Message) : Agent :=
  MkAgent log RUNNING calls None 0.

(** A call of [terminate] and a call of [bash], both with no arguments. *)
Definition sample_terminate_call : ToolCall :=
  MkToolCall (lit "call_1") (lit "terminate") [].

Definition sample_bash_call : ToolCall :=
  MkToolCall (lit "call_2") (lit "bash") (lit "{}").

(** A call of [html_to_vue], a pipeline tool, with no arguments. *)
Definition sample_vue_call : ToolCall :=
  MkToolCall (lit "call_3") (lit "html_to_vue") (lit "{}").

(** Tools that answer as [Bash] does after a restart:
    [CLIResult(system="...")], whose output is [None]. *)
Definition sample_restart_env : ToolEnv unit :=
  MkToolEnv unit
    (fun s => if bool_decide (s = lit "{}") then Some tt else None)
    (fun _ _ _ => TO_Result (MkToolResult Out_None None None (Some (lit "restarted")))).

(** A pipeline agent before [initialize]. *)
Definition sample_pagent : PAgent := MkPAgent (sample_agent [] []) [] [].

(** A plan of the three default steps with the given statuses, and a flow
    whose only plan it is, with one agent. *)
Definition sample_plan (sts : option (list pystr)) : Plan :=
  MkPlan (Some (lit "Plan for: demo")) default_steps sts (Some [[]; []; []]).

Definition sample_flow (sts : option (list pystr)) (cur : option nat) : Flow :=
  MkFlow {[ lit "plan_1" := sample_plan sts ]} (lit "plan_1") cur
    {[ lit "manus" := RUNNING ]} (Some (lit "manus")) [lit "manus"] 0.

(** Services that answer [up] for the plan store and [run] for every run
    of an agent. *)
Definition sample_fenv (up : bool) (run : RunOutcome) : FlowEnv unit :=
  MkFlowEnv unit (fun _ => up) (fun _ _ => lit "plan") (fun _ _ => Ask_Ok None)
    (fun _ => None) (fun _ _ _ ps => PO_Ok ps) (fun _ _ _ => run)
    (fun _ _ => Llm_Ok (lit "summary")) (fun _ _ => lit "0.0").

(** The statuses stored for the active plan. *)
Definition active_statuses (f : Flow) : option (list pystr) :=
  option_map statuses_of (plans f !! active_plan_id f).

(** * Properties *)

(** Source literals stay folded during simplification. *)
Arguments lit : simpl never.

(** Simplification that keeps decisions ([bool_decide]) folded. *)
Ltac simp := cbn -[bool_decide].

(** Simplification of the flow's monadic steps. *)
Ltac fsimp := cbn [run_st bind get modify ret throw try_catch next_call fst snd
                   plans ftick active_plan_id current_step_index set_current negb].

(** Closes the goal of [execute_tool_ok] once the run is evaluated. *)
Ltac fin := eexists _, _; split; [reflexivity|split; [reflexivity|]];
            first [left; reflexivity | right; eexists _, _; split; [eassumption|reflexivity]].

(** ** Source literals split at a word boundary *)

Lemma lit_error_parsing :
  lit "Error: " ++ lit "Error parsing arguments for "
  = lit "Error: Error parsing arguments for ".
Proof. vm_compute; reflexivity. Qed.

Lemma lit_token_limit :
  lit "Maximum token limit reached, cannot continue execution: "
  = lit "Maximum " ++ lit "token limit" ++ lit " reached, cannot continue execution: ".
Proof. vm_compute; reflexivity. Qed.

(** ** execute_tool *)

(** [execute_tool] returns an observation, leaves the log alone, and the
    media it leaves captured is the previous one or the one of the result of
    its own tool invocation. *)
Lemma execute_tool_ok {Json} (cfg : AgentConfig) (env : ToolEnv Json)
    (command : ToolCall) (a : Agent) :
  exists obs a1,
    run_st (execute_tool cfg env command) a = (Ok obs, a1)
    /\ messages a1 = messages a
    /\ (current_base64_image a1 = current_base64_image a
        \/ exists x r, tool_invoke env (tool_ticks a) (fn_name command) x = TO_Result r
                      /\ current_base64_image a1 = tr_base64_image r).
Proof.
  unfold execute_tool, handle_special_tool, invoke_tool.
  destruct command as [id name args]; cbn [fn_name].
  destruct (nonempty name); simp; [|fin].
  destruct (bool_decide (name ∈ tool_map_names cfg)); simp; [|fin].
  destruct (json_loads env _) as [x|]; simp; [|fin].
  destruct (tool_invoke env _ name x) as [r|e] eqn:Hinv; simp;
    [|destruct (exn_cls e); simp; fin].
  unfold format_observation, tool_result_str.
  destruct (negb (is_special_tool cfg name)); simp;
    [|destruct (should_finish_execution cfg name r); simp];
    destruct (field_truthy (tr_base64_image r)); simp;
    destruct (result_truthy r); simp; try fin;
    destruct (field_truthy (tr_error r)); simp; try fin;
    destruct (tr_output r); simp; fin.
Qed.

(** [str(result)] and the observation text change nothing. *)
Lemma format_observation_pure (name : pystr) (r : ToolResult) (a : Agent) :
  snd (run_st (format_observation name r) a) = a.
Proof.
  unfold format_observation, tool_result_str.
  destruct (result_truthy r); simp; [|reflexivity].
  destruct (field_truthy (tr_error r)); simp; [reflexivity|].
  destruct (tr_output r); reflexivity.
Qed.

(** Runs [format_observation] in the goal, keeping the state it leaves. *)
Ltac run_format :=
  match goal with
  | |- context [run_st (format_observation ?n ?r) ?s] =>
      let Hf := fresh "Hf" in
      pose proof (format_observation_pure n r s) as Hf;
      destruct (run_st (format_observation n r) s) as [[? | ? | ] ?];
      cbn [snd] in Hf; subst
  end.

(** ** C6 *)

(** C6: [execute_tool] never raises: every call returns an observation; a
    call without a tool name gives "Error: Invalid command format", an
    unknown name (such as "frobnicate") gives "Error: Unknown tool '<name>'",
    and arguments that fail to parse give an error naming the tool and the
    parse problem. *)
Theorem execute_tool_never_raises {Json} (cfg : AgentConfig) (env : ToolEnv Json)
    (command : ToolCall) (a : Agent) :
  (exists obs a', run_st (execute_tool cfg env command) a = (Ok obs, a'))
  /\ (fn_name command = [] ->
      fst (run_st (execute_tool cfg env command) a)
      = Ok (lit "Error: Invalid command format"))
  /\ (fn_name command <> [] -> fn_name command ∉ tool_map_names cfg ->
      fst (run_st (execute_tool cfg env command) a)
      = Ok (lit "Error: Unknown tool '" ++ fn_name command ++ lit "'"))
  /\ (fn_name command <> [] -> fn_name command ∈ tool_map_names cfg ->
      json_loads env (arguments_or_default command) = None ->
      fst (run_st (execute_tool cfg env command) a)
      = Ok (lit "Error: Error parsing arguments for " ++ fn_name command
            ++ lit ": Invalid JSON format")).
Proof.
  unfold execute_tool.
  destruct command as [id name args]; cbn [fn_name].
  split; [|split; [|split]].
  - destruct (execute_tool_ok cfg env (MkToolCall id name args) a)
      as (obs & a1 & Hrun & _).
    exists obs, a1; exact Hrun.
  - intros ->; reflexivity.
  - intros Hne Hnin.
    destruct name as [|c name]; [congruence|]; simp.
    rewrite bool_decide_eq_false_2 by exact Hnin; reflexivity.
  - intros Hne Hin Hjson.
    destruct name as [|c name]; [congruence|]; simp.
    rewrite bool_decide_eq_true_2 by exact Hin; simp.
    rewrite Hjson; simp.
    rewrite (app_assoc (lit "Error: ")), lit_error_parsing; reflexivity.
Qed.

(** ** C8 *)



(** ** C3 *)

Lemma act_loop_delivers {Json} (cfg : AgentConfig) (env : ToolEnv Json)
    (calls : list ToolCall) (a : Agent) :
  exists ms outs a',
    run_st (act_loop cfg env calls) a = (Ok outs, a')
    /\ delivers cfg env a calls ms outs a'
    /\ messages a' = messages a ++ ms.
Proof.
  revert a; induction calls as [|c cs IH]; intros a.
  - exists [], [], a; simp; split; [reflexivity|split; [constructor|]].
    by rewrite app_nil_r.
  - simp.
    match goal with
    | |- context [run_st (execute_tool cfg env c) ?s] =>
        destruct (execute_tool_ok cfg env c s) as (obs & a1 & Hrun & Hmsg & Himg)
    end.
    rewrite Hrun; simp.
    match goal with
    | |- context [run_st (act_loop cfg env cs) ?s] =>
        destruct (IH s) as (ms & outs & a' & Hr & Hd & Hm)
    end.
    rewrite Hr; simp.
    eexists _, _, a'; split; [reflexivity|split].
    + eapply delivers_cons; [exact Hrun|exact Hmsg| |exact Hd].
      destruct Himg as [Himg|Himg]; [left; exact Himg|right; exact Himg].
    + rewrite Hm; simp. rewrite Hmsg, <- app_assoc; reflexivity.
Qed.

Lemma delivers_shape {Json} (cfg : AgentConfig) (env : ToolEnv Json)
    (a : Agent) (calls : list ToolCall) (ms : list Message) (outs : list pystr)
    (a' : Agent) :
  delivers cfg env a calls ms outs a' ->
  Forall2 (fun c m => role m = RTool /\ tool_call_id m = Some (tc_id c)
                      /\ msg_name m = Some (fn_name c)) calls ms
  /\ map content ms = map Some outs.
Proof.
  induction 1 as [|a c cs obs a1 ms outs a2 _ _ _ _ [IH1 IH2]]; simp.
  - split; constructor.
  - split; [constructor; [repeat split|exact IH1]|].
    by rewrite IH2.
Qed.

(** C3: for a non-empty list of pending tool calls, [act] runs them one
    after the other in the proposed order: before each call the captured
    media is cleared, the call is executed, its observation is truncated as
    configured (to its first [n] characters for a maximum [n > 0]), and one
    tool message carrying the observation, the call id, the tool name and the
    media captured during that call is appended; exactly one message per
    call, in call order; the result is the observations joined in call
    order. *)
Theorem act_delivers_in_call_order {Json} (cfg : AgentConfig) (env : ToolEnv Json)
    (a : Agent) (Hcalls : tool_calls a <> []) :
  exists ms outs a',
    run_st (act cfg env) a = (Ok (join (nl ++ nl) outs), a')
    /\ delivers cfg env a (tool_calls a) ms outs a'
    /\ messages a' = messages a ++ ms
    /\ length ms = length (tool_calls a)
    /\ Forall2 (fun c m => role m = RTool /\ tool_call_id m = Some (tc_id c)
                           /\ msg_name m = Some (fn_name c)) (tool_calls a) ms
    /\ map content ms = map Some outs
    /\ (forall n, max_observe cfg = MO_Int n -> (0 < n)%Z ->
        forall o, observe_limit (max_observe cfg) o = take (Z.to_nat n) o).
Proof.
  destruct (act_loop_delivers cfg env (tool_calls a) a) as (ms & outs & a' & Hr & Hd & Hm).
  destruct (delivers_shape cfg env _ _ _ _ _ Hd) as [Hf Hc].
  exists ms, outs, a'.
  split; [|split; [exact Hd|split; [exact Hm|split; [|split; [exact Hf|split; [exact Hc|]]]]]].
  - unfold act; cbn [run_st bind get].
    destruct (tool_calls a) as [|c cs] eqn:E; [congruence|].
    cbn [run_st bind]; rewrite Hr; reflexivity.
  - symmetry; exact (Forall2_length _ _ _ Hf).
  - intros n Hmo Hpos o; rewrite Hmo; simp.
    rewrite (proj2 (Z.eqb_neq n 0)) by lia.
    unfold py_slice_to; rewrite (proj2 (Z.leb_le 0 n)) by lia; reflexivity.
Qed.

Lemma act_delivers_in_call_order_witness :
  tool_calls (sample_agent [sample_bash_call; sample_terminate_call] []) <> []
  /\ exists ms outs a',
    run_st (act (sample_cfg TC_AUTO (MO_Int 3)) sample_env)
      (sample_agent [sample_bash_call; sample_terminate_call] [])
    = (Ok (join (nl ++ nl) outs), a')
    /\ map content ms = map Some outs
    /\ messages a' = ms.
Proof.
  assert (H : tool_calls (sample_agent [sample_bash_call; sample_terminate_call] []) <> [])
    by discriminate.
  split; [exact H|].
  destruct (act_delivers_in_call_order (sample_cfg TC_AUTO (MO_Int 3)) sample_env _ H)
    as (ms & outs & a' & Hr & _ & Hm & _ & _ & Hc & _).
  exists ms, outs, a'; split; [exact Hr|split; [exact Hc|exact Hm]].
Defined.

(** ** think *)



(** ** C2 *)

(** A counterexample to C2: a [ValueError] whose cause is a
    [TokenLimitExceeded] is re-raised by [think] ([except ValueError: raise]
    comes first), so [step] raises and the agent stays RUNNING; the same
    holds for a [TokenLimitExceeded] raised directly, which has no cause. *)
Lemma token_limit_value_error_propagates :
  let e1 := Exn ValueError (lit "bad request")
              (Some (Exn TokenLimitExceeded (lit "too many tokens") None)) in
  let e2 := Exn TokenLimitExceeded (lit "too many tokens") None in
  fst (run_st (step (sample_cfg TC_AUTO MO_None) sample_env (Ask_Raise e1))
         (sample_agent [] [])) = Raise e1
  /\ state (snd (run_st (step (sample_cfg TC_AUTO MO_None) sample_env (Ask_Raise e1))
                (sample_agent [] []))) = RUNNING
  /\ fst (run_st (step (sample_cfg TC_AUTO MO_None) sample_env (Ask_Raise e2))
         (sample_agent [] [])) = Raise e2
  /\ state (snd (run_st (step (sample_cfg TC_AUTO MO_None) sample_env (Ask_Raise e2))
                (sample_agent [] []))) = RUNNING.
Proof.
  intros e1 e2; split; [|split; [|split]]; reflexivity.
Qed.

(** C2, corrected: when the call to the language model fails with an
    exception that is not a [ValueError] and whose [__cause__] is a
    [TokenLimitExceeded], [think] appends (after the next-step prompt) one
    assistant message whose text contains "token limit", sets the state to
    FINISHED and returns false, and [step] returns "Thinking complete - no
    action needed"; every other failure, a [ValueError] with such a cause
    included, is raised again unchanged by [think] and by [step], with the
    state untouched and only the next-step prompt appended. *)
Theorem token_limit_finishes_agent {Json} (cfg : AgentConfig) (env : ToolEnv Json)
    (e : exn) (a : Agent) :
  (token_limit_failure e = true ->
   exists c text,
     exn_cause e = Some c /\ exn_cls c = TokenLimitExceeded
     /\ text = lit "Maximum token limit reached, cannot continue execution: " ++ exn_msg c
     /\ (exists pre post, text = pre ++ lit "token limit" ++ post)
     /\ fst (run_st (think cfg (Ask_Raise e)) a) = Ok false
     /\ messages (snd (run_st (think cfg (Ask_Raise e)) a))
        = messages a ++ prompt_messages cfg ++ [assistant_message text]
     /\ state (snd (run_st (think cfg (Ask_Raise e)) a)) = FINISHED
     /\ fst (run_st (step cfg env (Ask_Raise e)) a)
        = Ok (lit "Thinking complete - no action needed")
     /\ state (snd (run_st (step cfg env (Ask_Raise e)) a)) = FINISHED)
  /\ (token_limit_failure e = false ->
      fst (run_st (think cfg (Ask_Raise e)) a) = Raise e
      /\ messages (snd (run_st (think cfg (Ask_Raise e)) a))
         = messages a ++ prompt_messages cfg
      /\ state (snd (run_st (think cfg (Ask_Raise e)) a)) = state a
      /\ fst (run_st (step cfg env (Ask_Raise e)) a) = Raise e).
Proof.
  unfold token_limit_failure, prompt_messages, step, think, add_message.
  destruct e as [cls msg cause]; cbn [exn_cls exn_cause exn_msg].
  split.
  - intros Ht.
    destruct (is_value_error cls); [discriminate|].
    destruct cause as [[ccls cmsg ccause]|]; [|discriminate].
    destruct ccls; try discriminate.
    eexists _, _; split; [reflexivity|split; [reflexivity|split; [reflexivity|split]]].
    + exists (lit "Maximum "), (lit " reached, cannot continue execution: " ++ cmsg).
      rewrite lit_token_limit, <- !app_assoc; reflexivity.
    + destruct (nonempty (next_step_prompt cfg)); cbn [run_st bind ret modify fst snd
        messages state set_messages set_state negb exn_msg exn_cls];
        rewrite ?app_nil_r, ?app_assoc, ?app_nil_r; repeat apply conj; reflexivity.
  - intros Ht.
    destruct (is_value_error cls).
    + destruct (nonempty (next_step_prompt cfg)); cbn [run_st bind ret throw modify fst snd
        messages state set_messages exn_cls];
        rewrite ?app_nil_r; repeat apply conj; reflexivity.
    + destruct cause as [[ccls cmsg ccause]|].
      * destruct ccls; try discriminate;
          destruct (nonempty (next_step_prompt cfg)); cbn [run_st bind ret throw modify fst snd
            messages state set_messages exn_cls];
          rewrite ?app_nil_r; repeat apply conj; reflexivity.
      * destruct (nonempty (next_step_prompt cfg)); cbn [run_st bind ret throw modify fst snd
          messages state set_messages exn_cls exn_cause];
          rewrite ?app_nil_r; repeat apply conj; reflexivity.
Qed.

(** ** C5 *)

(** [act] with no pending call, under a policy other than REQUIRED, answers
    from the last message of the log. *)
Lemma act_without_calls {Json} (cfg : AgentConfig) (env : ToolEnv Json) (a : Agent) :
  tool_calls a = [] -> tool_choices cfg <> TC_REQUIRED ->
  run_st (act cfg env) a
  = (match last (messages a) with
     | None => Raise (Exn IndexError (lit "list index out of range") None)
     | Some m => Ok (match content m with
                     | Some c => if nonempty c then c else NO_CONTENT
                     | None => NO_CONTENT
                     end)
     end, a).
Proof.
  intros Hc Hr; unfold act, choice_is_required; cbn [run_st bind get]; rewrite Hc.
  destruct (tool_choices cfg); [| |congruence]; cbn [run_st];
    destruct (last (messages a)); cbn [run_st ret throw]; unfold NO_CONTENT; reflexivity.
Qed.

(** A counterexample to C5: under AUTO, [act] with no pending call does not
    return the last message's content verbatim when that content is empty
    (it returns "No content or commands to execute"), and it raises an
    [IndexError] when the log is empty. *)
Lemma act_no_calls_not_verbatim :
  fst (run_st (act (sample_cfg TC_AUTO MO_None) sample_env)
         (sample_agent [] [assistant_message []])) = Ok NO_CONTENT
  /\ content (assistant_message []) = Some []
  /\ NO_CONTENT <> []
  /\ fst (run_st (act (sample_cfg TC_AUTO MO_None) sample_env) (sample_agent [] []))
     = Raise (Exn IndexError (lit "list index out of range") None).
Proof.
  split; [vm_compute; reflexivity|split; [reflexivity|split; [vm_compute; discriminate|vm_compute; reflexivity]]].
Qed.

(** C5, corrected: under REQUIRED, [think] returns true for an answer
    without tool calls and the following [act] raises
    [ValueError("Tool calls required but none provided")], leaving the agent
    as it was; under any other policy [act] with no pending call raises
    nothing on a non-empty log and returns the last message's content when
    that content is non-empty, "No content or commands to execute" when it
    is empty or missing, and raises [IndexError] on an empty log. In a
    [step] whose answer has no tool calls, the last message is the answer's
    own text, so [step] returns that text verbatim when it is non-empty. *)
Theorem required_policy_defers_to_act {Json} (cfg : AgentConfig) (env : ToolEnv Json)
    (a : Agent) (resp : Response) :
  (tool_choices cfg = TC_REQUIRED -> resp_tool_calls resp = [] ->
   fst (run_st (think cfg (Ask_Ok (Some resp))) a) = Ok true)
  /\ (tool_choices cfg = TC_REQUIRED -> tool_calls a = [] ->
      run_st (act cfg env) a = (Raise (Exn ValueError TOOL_CALL_REQUIRED None), a))
  /\ (tool_choices cfg <> TC_REQUIRED -> tool_calls a = [] ->
      (forall m, last (messages a) = Some m ->
         fst (run_st (act cfg env) a)
         = Ok (match content m with
               | Some c => if nonempty c then c else NO_CONTENT
               | None => NO_CONTENT
               end)
         /\ snd (run_st (act cfg env) a) = a)
      /\ (messages a = [] ->
          fst (run_st (act cfg env) a)
          = Raise (Exn IndexError (lit "list index out of range") None)))
  /\ (tool_choices cfg <> TC_REQUIRED -> resp_tool_calls resp = [] ->
      fst (run_st (step cfg env (Ask_Ok (Some resp))) a)
      = Ok (if nonempty (default [] (resp_content resp))
            then default [] (resp_content resp)
            else lit "Thinking complete - no action needed")).
Proof.
  split; [|split; [|split]].
  - intros Hreq Hno.
    unfold think, choice_is_none, choice_is_required, add_message; rewrite Hreq, Hno.
    destruct (nonempty (next_step_prompt cfg)); reflexivity.
  - intros Hreq Hc.
    unfold act, choice_is_required; cbn [run_st bind get]; rewrite Hc, Hreq; reflexivity.
  - intros Hr Hc; split.
    + intros m Hm; rewrite (act_without_calls cfg env a Hc Hr), Hm; split; reflexivity.
    + intros Hm; rewrite (act_without_calls cfg env a Hc Hr), Hm; reflexivity.
  - intros Hr Hno.
    unfold step; cbn [run_st bind].
    unfold think, choice_is_none, choice_is_required, choice_is_auto, add_message.
    rewrite Hno.
    destruct (tool_choices cfg) eqn:Ech; [| |congruence];
      destruct (nonempty (next_step_prompt cfg)); simp;
      destruct (resp_content resp) as [c|]; simp;
      try (destruct (nonempty c) eqn:Ec; simp);
      try reflexivity.
    all: unfold choice_is_required; rewrite Ech, last_snoc; cbn [run_st ret content fst assistant_message]; rewrite Ec; reflexivity.
Qed.

(** ** The planning flow: plan store bookkeeping *)

Lemma update_plan_lookup (pid : pystr) (g : Plan -> Plan) (f : Flow) :
  plans (update_plan pid g f) !! pid = option_map g (plans f !! pid).
Proof.
  unfold update_plan; destruct (plans f !! pid) eqn:E; cbn [plans set_plans];
    [rewrite lookup_insert_eq; reflexivity | rewrite E; reflexivity].
Qed.

Lemma update_plan_active (pid : pystr) (g : Plan -> Plan) (f : Flow) :
  active_plan_id (update_plan pid g f) = active_plan_id f.
Proof. unfold update_plan; destruct (plans f !! pid); reflexivity. Qed.

Lemma update_plan_current (pid : pystr) (g : Plan -> Plan) (f : Flow) :
  current_step_index (update_plan pid g f) = current_step_index f.
Proof. unfold update_plan; destruct (plans f !! pid); reflexivity. Qed.

Lemma length_pad_to {A} (x : A) (n : nat) (l : list A) :
  length (pad_to x n l) = max n (length l).
Proof. unfold pad_to; rewrite length_app, length_replicate; lia. Qed.

Lemma length_in_progress_fallback (i : nat) (sts : list pystr) :
  length sts <= length (in_progress_fallback i sts)
  /\ i < length (in_progress_fallback i sts).
Proof.
  unfold in_progress_fallback; case_bool_decide.
  - rewrite length_insert; lia.
  - rewrite length_app, length_pad_to; cbn [length]; lia.
Qed.

Lemma length_completed_fallback (i : nat) (sts : list pystr) :
  length sts <= length (completed_fallback i sts)
  /\ i < length (completed_fallback i sts).
Proof.
  unfold completed_fallback; rewrite length_insert, length_pad_to; lia.
Qed.

Lemma statuses_of_set (l : list pystr) (p : Plan) : statuses_of (set_statuses l p) = l.
Proof. reflexivity. Qed.


(** The outcomes of [mark_step]: the statuses of the active plan either
    get [s] at [i] (within the array) or are left alone. *)
Lemma store_mark_step_cases {Json} (fenv : FlowEnv Json) (i : nat) (s : pystr) (f : Flow) :
  let pid := active_plan_id f in
  (exists e, run_st (store_mark_step fenv i s) f = (Raise e, ftick f))
  \/ (plans f !! pid = None /\ run_st (store_mark_step fenv i s) f = (Ok tt, ftick f))
  \/ (exists p l, plans f !! pid = Some p /\ step_statuses p = Some l /\ i < length l
      /\ run_st (store_mark_step fenv i s) f
         = (Ok tt, update_plan pid (set_statuses (<[i := s]> l)) (ftick f))).
Proof.
  cbv zeta; unfold store_mark_step, next_call; fsimp.
  destruct (store_up fenv (flow_ticks f)); fsimp; [|left; eexists; reflexivity].
  destruct (plans f !! active_plan_id f) as [p|] eqn:Ep;
    [|right; left; split; reflexivity].
  destruct (step_statuses p) as [l|] eqn:El; [|left; eexists; reflexivity].
  case_bool_decide; fsimp; [|left; eexists; reflexivity].
  right; right; exists p, l; repeat split; assumption.
Qed.

Lemma select_statuses {Json} (fenv : FlowEnv Json) (f : Flow) (p : Plan)
    (Hp : plans f !! active_plan_id f = Some p) :
  active_plan_id (snd (run_st (get_current_step_info fenv) f)) = active_plan_id f
  /\ exists p', plans (snd (run_st (get_current_step_info fenv) f)) !! active_plan_id f = Some p'
     /\ steps p' = steps p
     /\ length (statuses_of p) <= length (statuses_of p')
     /\ (forall i info, fst (run_st (get_current_step_info fenv) f) = Ok (Some (i, info)) ->
         i < length (statuses_of p')).
Proof.
  unfold get_current_step_info; fsimp.
  destruct (nonempty (active_plan_id f)); fsimp;
    [|split; [reflexivity|exists p; repeat split; [assumption|lia|discriminate]]].
  rewrite Hp; fsimp.
  destruct (first_active (steps p) (statuses_of p)) as [[i stp]|]; fsimp;
    [|split; [reflexivity|exists p; repeat split; [assumption|lia|discriminate]]].
  destruct (store_mark_step_cases fenv i IN_PROGRESS f)
    as [[e He]|[[Hn _]|(p0 & l & Hp0 & Hl & Hi & He)]]; rewrite ?He; fsimp.
  - rewrite update_plan_active; split; [reflexivity|].
    rewrite update_plan_lookup; cbn [plans ftick]; rewrite Hp.
    eexists; split; [reflexivity|].
    destruct (length_in_progress_fallback i (statuses_of p)).
    split; [reflexivity|split; [assumption|]].
    intros i' info [= <- _]; assumption.
  - congruence.
  - rewrite update_plan_active; split; [reflexivity|].
    rewrite update_plan_lookup; cbn [plans ftick]; rewrite Hp0.
    rewrite Hp in Hp0; injection Hp0 as <-.
    eexists; split; [reflexivity|].
    unfold statuses_of at 1; rewrite Hl; cbn [default].
    rewrite statuses_of_set, length_insert.
    split; [reflexivity|split; [cbv [id]; lia|]].
    intros i' info [= <- _]; assumption.
Qed.

Lemma mark_completed_statuses {Json} (fenv : FlowEnv Json) (f : Flow) (p : Plan)
    (Hp : plans f !! active_plan_id f = Some p) :
  active_plan_id (snd (run_st (mark_step_completed fenv) f)) = active_plan_id f
  /\ exists p', plans (snd (run_st (mark_step_completed fenv) f)) !! active_plan_id f = Some p'
     /\ steps p' = steps p
     /\ length (statuses_of p) <= length (statuses_of p')
     /\ (forall i, current_step_index f = Some i -> i < length (statuses_of p')).
Proof.
  unfold mark_step_completed; fsimp.
  destruct (current_step_index f) as [i|] eqn:Ei; fsimp;
    [|split; [reflexivity|exists p; repeat split; [assumption|lia|discriminate]]].
  destruct (store_mark_step_cases fenv i COMPLETED f)
    as [[e He]|[[Hn _]|(p0 & l & Hp0 & Hl & Hi & He)]]; rewrite ?He; fsimp.
  - rewrite Hp; fsimp.
    rewrite update_plan_active; split; [reflexivity|].
    rewrite update_plan_lookup; cbn [plans ftick]; rewrite Hp.
    eexists; split; [reflexivity|].
    destruct (length_completed_fallback i (statuses_of p)).
    split; [reflexivity|split; [assumption|]].
    intros i' [= <-]; assumption.
  - congruence.
  - rewrite update_plan_active; split; [reflexivity|].
    rewrite update_plan_lookup; cbn [plans ftick]; rewrite Hp0.
    rewrite Hp in Hp0; injection Hp0 as <-.
    eexists; split; [reflexivity|].
    unfold statuses_of at 1; rewrite Hl; cbn [default].
    rewrite statuses_of_set, length_insert.
    split; [reflexivity|split; [cbv [id]; lia|]].
    intros i' [= <-]; assumption.
Qed.

Lemma status_at_pad (n : nat) (l : list pystr) (j : nat) :
  status_at (pad_to NOT_STARTED n l) j = status_at l j.
Proof.
  unfold status_at, pad_to.
  destruct (l !! j) eqn:E.
  - rewrite (lookup_app_l_Some _ _ _ _ E); reflexivity.
  - rewrite lookup_app_r by (apply lookup_ge_None_1; assumption).
    destruct (replicate (n - length l) NOT_STARTED !! (j - length l)) eqn:R; [|reflexivity].
    apply lookup_replicate in R as [-> _]; reflexivity.
Qed.

Lemma plan_text_statuses {Json} (fenv : FlowEnv Json) (f : Flow) (p : Plan)
    (Hp : plans f !! active_plan_id f = Some p) :
  active_plan_id (snd (run_st (get_plan_text fenv) f)) = active_plan_id f
  /\ current_step_index (snd (run_st (get_plan_text fenv) f)) = current_step_index f
  /\ agents (snd (run_st (get_plan_text fenv) f)) = agents f
  /\ (exists t, fst (run_st (get_plan_text fenv) f) = Ok t)
  /\ exists p', plans (snd (run_st (get_plan_text fenv) f)) !! active_plan_id f = Some p'
     /\ steps p' = steps p
     /\ length (statuses_of p) <= length (statuses_of p')
     /\ (store_up fenv (flow_ticks f) = false -> step_statuses p <> None ->
         length (steps p) <= length (statuses_of p'))
     /\ (forall j, status_at (statuses_of p') j = status_at (statuses_of p) j).
Proof.
  unfold get_plan_text, store_get, next_call; fsimp.
  destruct (store_up fenv (flow_ticks f)) eqn:Eup; fsimp.
  - rewrite Hp; fsimp.
    split; [reflexivity|split; [reflexivity|split; [reflexivity|split; [eexists; reflexivity|]]]].
    exists p; split; [exact Hp|split; [reflexivity|split; [lia|split; [congruence|reflexivity]]]].
  - unfold generate_plan_text_from_storage; fsimp.
    rewrite Hp; fsimp.
    rewrite update_plan_active, update_plan_current.
    split; [reflexivity|split; [reflexivity|split; [unfold update_plan; cbn [plans ftick]; rewrite Hp; reflexivity|split; [eexists; reflexivity|]]]].
    rewrite update_plan_lookup; cbn [plans ftick]; rewrite Hp; cbn [option_map].
    eexists; split; [reflexivity|].
    unfold pad_stored, statuses_of; cbn [steps step_statuses].
    destruct (step_statuses p) as [l|]; cbn [option_map default].
      cbv [id]; rewrite length_pad_to.
      split; [reflexivity|split; [lia|split; [intros _ _; lia|]]].
      intros j; apply status_at_pad.
    + split; [reflexivity|split; [lia|split; [intros _ H; congruence|]]].
      reflexivity.
Qed.

(** What one [_get_current_step_info] does: nothing, or it marks the first
    active step in progress (through the store or the fallback, which agree). *)
Lemma select_cases {Json} (fenv : FlowEnv Json) (f : Flow) :
  (run_st (get_current_step_info fenv) f = (Ok None, f)
   /\ forall p, nonempty (active_plan_id f) = true -> plans f !! active_plan_id f = Some p ->
      first_active (steps p) (statuses_of p) = None)
  \/ exists p i stp,
       nonempty (active_plan_id f) = true
       /\ plans f !! active_plan_id f = Some p
       /\ first_active (steps p) (statuses_of p) = Some (i, stp)
       /\ run_st (get_current_step_info fenv) f
          = (Ok (Some (i, step_info_of stp)),
             update_plan (active_plan_id f)
               (set_statuses (in_progress_fallback i (statuses_of p))) (ftick f)).
Proof.
  unfold get_current_step_info; fsimp.
  destruct (nonempty (active_plan_id f)) eqn:Ene; fsimp;
    [|left; split; [reflexivity|discriminate]].
  destruct (plans f !! active_plan_id f) as [p|] eqn:Ep; fsimp;
    [|left; split; [reflexivity|congruence]].
  destruct (first_active (steps p) (statuses_of p)) as [[i stp]|] eqn:Efa; fsimp;
    [|left; split; [reflexivity|intros p' _ [= <-]; exact Efa]].
  right; exists p, i, stp; split; [|split; [|split]]; try first [reflexivity|assumption].
  destruct (store_mark_step_cases fenv i IN_PROGRESS f)
    as [[e He]|[[Hn _]|(p0 & l & Hp0 & Hl & Hi & He)]]; rewrite ?He; fsimp.
  - reflexivity.
  - congruence.
  - rewrite Ep in Hp0; injection Hp0 as <-.
    unfold in_progress_fallback, statuses_of; rewrite Hl; cbv [default id].
    rewrite bool_decide_eq_true_2 by exact Hi; reflexivity.
Qed.

Lemma is_active_not_started : is_active NOT_STARTED = true.
Proof. vm_compute; reflexivity. Qed.

Lemma is_active_in_progress : is_active IN_PROGRESS = true.
Proof. vm_compute; reflexivity. Qed.

Lemma first_active_from_spec (k : nat) (stps sts : list pystr) (i : nat) (s : pystr) :
  first_active_from k stps sts = Some (i, s) ->
  k <= i /\ stps !! (i - k) = Some s /\ is_active (status_at sts i) = true
  /\ (forall j, k <= j < i -> is_active (status_at sts j) = false).
Proof.
  revert k; induction stps as [|s0 stps IH]; intros k H; cbn [first_active_from] in H;
    [discriminate|].
  destruct (is_active (status_at sts k)) eqn:E.
  - injection H as <- <-; rewrite Nat.sub_diag.
    split; [lia|split; [reflexivity|split; [exact E|intros j Hj; lia]]].
  - destruct (IH (S k) H) as (Hk & Hs & Ha & Hb).
    split; [lia|split; [|split; [exact Ha|]]].
    + replace (i - k) with (S (i - S k)) by lia; exact Hs.
    + intros j Hj; destruct (decide (j = k)) as [->|]; [exact E|apply Hb; lia].
Qed.

(** The scan only depends on which of the statuses up to the one it finds
    are active. *)
Lemma first_active_from_ext (k : nat) (stps sts sts' : list pystr) (i : nat) (s : pystr) :
  first_active_from k stps sts = Some (i, s) ->
  (forall j, k <= j < i -> is_active (status_at sts' j) = false) ->
  is_active (status_at sts' i) = true ->
  first_active_from k stps sts' = Some (i, s).
Proof.
  revert k; induction stps as [|s0 stps IH]; intros k H Hb Ha; cbn [first_active_from] in *;
    [discriminate|].
  destruct (is_active (status_at sts k)) eqn:E.
  - injection H as <- <-; rewrite Ha; reflexivity.
  - destruct (first_active_from_spec _ _ _ _ _ H) as (Hk & _).
    rewrite (Hb k) by lia.
    apply IH; [exact H| |exact Ha].
    intros j Hj; apply Hb; lia.
Qed.

(** The first active step lies within the status array or just past it,
    since missing entries read as not started. *)
Lemma first_active_bound (stps sts : list pystr) (i : nat) (s : pystr) :
  first_active stps sts = Some (i, s) -> i <= length sts.
Proof.
  intros H; destruct (first_active_from_spec _ _ _ _ _ H) as (_ & _ & _ & Hb).
  destruct (decide (i <= length sts)) as [|Hgt]; [assumption|].
  specialize (Hb (length sts) ltac:(lia)).
  unfold status_at in Hb; rewrite lookup_ge_None_2 in Hb by lia.
  rewrite is_active_not_started in Hb; discriminate.
Qed.

Lemma in_progress_fallback_status (i : nat) (sts : list pystr) :
  i <= length sts ->
  (forall j, j <> i -> status_at (in_progress_fallback i sts) j = status_at sts j)
  /\ in_progress_fallback i sts !! i = Some IN_PROGRESS.
Proof.
  intros Hle; unfold in_progress_fallback; case_bool_decide as Hlt.
  - split.
    + intros j Hj; unfold status_at; rewrite list_lookup_insert_ne by congruence; reflexivity.
    + apply list_lookup_insert_eq; exact Hlt.
  - assert (i = length sts) as -> by lia.
    unfold pad_to; rewrite Nat.sub_diag; cbn [replicate]; rewrite app_nil_r.
    split.
    + intros j Hj; unfold status_at.
      destruct (decide (j < length sts)).
      * rewrite lookup_app_l by lia; reflexivity.
      * rewrite lookup_app_r by lia.
        rewrite (lookup_ge_None_2 sts j) by lia.
        rewrite lookup_cons_ne_0 by lia.
        rewrite lookup_nil; reflexivity.
    + rewrite lookup_app_r by lia; rewrite Nat.sub_diag; reflexivity.
Qed.

Lemma in_progress_fallback_id (i : nat) (sts : list pystr) :
  sts !! i = Some IN_PROGRESS -> in_progress_fallback i sts = sts.
Proof.
  intros H; unfold in_progress_fallback.
  rewrite bool_decide_eq_true_2 by (apply lookup_lt_is_Some_1; rewrite H; eauto).
  apply list_insert_id; exact H.
Qed.

(** ** C4 *)

(** C4: two calls of [_get_current_step_info] in a row return the same
    result, whatever the plan store does; the second call leaves the plans
    as the first left them. The index returned is the first step whose
    status is active (not_started or in_progress), and after the first call
    that step is in_progress. *)
Theorem select_next_idempotent {Json} (fenv : FlowEnv Json) (f : Flow) :
  fst (run_st (get_current_step_info fenv) (snd (run_st (get_current_step_info fenv) f)))
  = fst (run_st (get_current_step_info fenv) f)
  /\ plans (snd (run_st (get_current_step_info fenv)
                  (snd (run_st (get_current_step_info fenv) f))))
     = plans (snd (run_st (get_current_step_info fenv) f))
  /\ (forall i info, fst (run_st (get_current_step_info fenv) f) = Ok (Some (i, info)) ->
      exists p stp,
        plans f !! active_plan_id f = Some p
        /\ steps p !! i = Some stp /\ info = step_info_of stp
        /\ is_active (status_at (statuses_of p) i) = true
        /\ (forall j, j < i -> is_active (status_at (statuses_of p) j) = false)
        /\ exists sts1, active_statuses (snd (run_st (get_current_step_info fenv) f)) = Some sts1
                        /\ sts1 !! i = Some IN_PROGRESS).
Proof.
  destruct (select_cases fenv f) as [[H1 _] | (p & i & stp & Hne & Hp & Hfa & H1)];
    rewrite H1; cbn [fst snd].
  - rewrite H1; split; [reflexivity|split; [reflexivity|intros ? ? [=]]].
  - pose proof (first_active_bound _ _ _ _ Hfa) as Hb.
    destruct (in_progress_fallback_status i (statuses_of p) Hb) as [Hsame Hat].
    destruct (first_active_from_spec _ _ _ _ _ Hfa) as (_ & Hs & Ha & Hbefore).
    rewrite Nat.sub_0_r in Hs.
    set (sts1 := in_progress_fallback i (statuses_of p)) in *.
    assert (Hfa1 : first_active (steps p) sts1 = Some (i, stp)).
    { apply (first_active_from_ext _ _ (statuses_of p)); [exact Hfa| |].
      - intros j Hj; rewrite Hsame by lia; apply Hbefore; lia.
      - unfold status_at; rewrite Hat; apply is_active_in_progress. }
    set (f1 := update_plan (active_plan_id f) (set_statuses sts1) (ftick f)).
    assert (Hp1 : plans f1 !! active_plan_id f1 = Some (set_statuses sts1 p)).
    { unfold f1; rewrite update_plan_active, update_plan_lookup; cbn [plans ftick active_plan_id].
      rewrite Hp; reflexivity. }
    assert (Hne1 : nonempty (active_plan_id f1) = true).
    { unfold f1; rewrite update_plan_active; exact Hne. }
    destruct (select_cases fenv f1) as [[H2 Hn2] | (p1 & i1 & stp1 & _ & Hp1' & Hfa1' & H2)].
    + exfalso; specialize (Hn2 _ Hne1 Hp1); cbn [steps set_statuses] in Hn2.
      rewrite statuses_of_set, Hfa1 in Hn2; discriminate.
    + rewrite Hp1 in Hp1'; injection Hp1' as <-.
      cbn [steps set_statuses] in Hfa1'; rewrite statuses_of_set, Hfa1 in Hfa1'.
      injection Hfa1' as <- <-.
      rewrite H2; cbn [fst snd].
      split; [reflexivity|split].
      * rewrite statuses_of_set, (in_progress_fallback_id i sts1 Hat).
        unfold update_plan at 1; cbn [plans ftick]; rewrite Hp1; cbn [plans set_plans].
        apply insert_id; exact Hp1.
      * intros i' info [= <- <-].
        exists p, stp; split; [exact Hp|split; [exact Hs|split; [reflexivity|split; [exact Ha|]]]].
        split; [intros j Hj; apply Hbefore; lia|].
        exists sts1; split; [|exact Hat].
        unfold active_statuses; fold f1; rewrite Hp1; reflexivity.
Qed.

(** ** C1 *)

(** A counterexample to C1: with three steps, an empty status array and the
    plan store unavailable, selecting the next step leaves an array of
    length 1 (the fallback pads only up to the step it marks), and so does
    marking step 0 completed. *)
Lemma status_array_not_padded :
  length (steps (sample_plan (Some []))) = 3
  /\ active_statuses (snd (run_st (get_current_step_info (sample_fenv false (Run_Ok [] IDLE)))
                             (sample_flow (Some []) None)))
     = Some [IN_PROGRESS]
  /\ active_statuses (snd (run_st (mark_step_completed (sample_fenv false (Run_Ok [] IDLE)))
                             (sample_flow (Some []) (Some 0))))
     = Some [COMPLETED].
Proof. split; [reflexivity|split; vm_compute; reflexivity]. Qed.

(** The exact lengths the two fallbacks leave. *)
Lemma length_in_progress_fallback_eq (i : nat) (sts : list pystr) :
  length (in_progress_fallback i sts) = max (length sts) (S i).
Proof.
  unfold in_progress_fallback; case_bool_decide.
  - rewrite length_insert; lia.
  - rewrite length_app, length_pad_to; cbn [length]; lia.
Qed.

Lemma length_completed_fallback_eq (i : nat) (sts : list pystr) :
  length (completed_fallback i sts) = max (length sts) (S i).
Proof. unfold completed_fallback; rewrite length_insert, length_pad_to; lia. Qed.

(** [_mark_step_completed] leaves the statuses of the active plan as its
    fallback computes them, whichever way the store answers. *)
Lemma mark_completed_result {Json} (fenv : FlowEnv Json) (f : Flow) (p : Plan)
    (Hp : plans f !! active_plan_id f = Some p) :
  exists p', plans (snd (run_st (mark_step_completed fenv) f)) !! active_plan_id f = Some p'
     /\ steps p' = steps p
     /\ length (statuses_of p')
        = match current_step_index f with
          | Some i => max (length (statuses_of p)) (S i)
          | None => length (statuses_of p)
          end.
Proof.
  unfold mark_step_completed; fsimp.
  destruct (current_step_index f) as [i|] eqn:Ei; fsimp;
    [|exists p; repeat split; assumption].
  destruct (store_mark_step_cases fenv i COMPLETED f)
    as [[e He]|[[Hn _]|(p0 & l & Hp0 & Hl & Hi & He)]]; rewrite ?He; fsimp.
  - rewrite Hp; fsimp.
    rewrite update_plan_lookup; cbn [plans ftick]; rewrite Hp.
    eexists; split; [reflexivity|split; [reflexivity|]].
    rewrite statuses_of_set; apply length_completed_fallback_eq.
  - congruence.
  - rewrite update_plan_lookup; cbn [plans ftick]; rewrite Hp0.
    rewrite Hp in Hp0; injection Hp0 as <-.
    eexists; split; [reflexivity|split; [reflexivity|]].
    assert (Hs : statuses_of p = l) by (unfold statuses_of; rewrite Hl; reflexivity).
    rewrite statuses_of_set, length_insert, Hs; lia.
Qed.

(** [_get_plan_text] keeps the plan when the store answers and writes the
    padding of the rendering from storage back when it does not. *)
Lemma plan_text_result {Json} (fenv : FlowEnv Json) (f : Flow) (p : Plan)
    (Hp : plans f !! active_plan_id f = Some p) :
  plans (snd (run_st (get_plan_text fenv) f)) !! active_plan_id f
  = Some (if store_up fenv (flow_ticks f) then p else pad_stored p).
Proof.
  unfold get_plan_text, store_get, next_call; fsimp.
  destruct (store_up fenv (flow_ticks f)); fsimp.
  - rewrite Hp; fsimp; exact Hp.
  - unfold generate_plan_text_from_storage; fsimp.
    rewrite Hp; fsimp.
    rewrite update_plan_lookup; cbn [plans ftick]; rewrite Hp; reflexivity.
Qed.

Lemma length_pad_stored (p : Plan) :
  length (statuses_of (pad_stored p))
  = match step_statuses p with Some l => max (length (steps p)) (length l) | None => 0 end.
Proof.
  unfold pad_stored, statuses_of; cbn [step_statuses].
  destruct (step_statuses p); cbn [option_map default]; [apply length_pad_to|reflexivity].
Qed.

(** C1, corrected: the status array of the active plan is not padded to the
    number of steps N before reads or writes. Selecting the next step picks
    the first active step [i] of the array as it is (entries past its end
    count as not started) and leaves an array of length exactly
    max(length, i+1), through the store or its fallback, and changes nothing
    when no step is active. Marking the current step [i] completed leaves an
    array of length exactly max(length, i+1) (unchanged without a current
    step). Rendering the plan keeps it when the store answers; otherwise the
    rendering from storage writes its padding back, so a present array gets
    length max(N, length). No operation changes the steps. *)
Theorem status_array_grows {Json} (fenv : FlowEnv Json) (f : Flow) (p : Plan)
    (Hp : plans f !! active_plan_id f = Some p) :
  (fst (run_st (get_current_step_info fenv) f) = Ok None ->
     snd (run_st (get_current_step_info fenv) f) = f)
  /\ (forall i info, fst (run_st (get_current_step_info fenv) f) = Ok (Some (i, info)) ->
      exists stp p',
        first_active (steps p) (statuses_of p) = Some (i, stp)
        /\ plans (snd (run_st (get_current_step_info fenv) f)) !! active_plan_id f = Some p'
        /\ steps p' = steps p
        /\ length (statuses_of p') = max (length (statuses_of p)) (S i))
  /\ (exists p', plans (snd (run_st (mark_step_completed fenv) f)) !! active_plan_id f = Some p'
     /\ steps p' = steps p
     /\ length (statuses_of p')
        = match current_step_index f with
          | Some i => max (length (statuses_of p)) (S i)
          | None => length (statuses_of p)
          end)
  /\ (exists p', plans (snd (run_st (get_plan_text fenv) f)) !! active_plan_id f = Some p'
     /\ steps p' = steps p
     /\ (store_up fenv (flow_ticks f) = true -> p' = p)
     /\ (store_up fenv (flow_ticks f) = false ->
         p' = pad_stored p
         /\ length (statuses_of p')
            = match step_statuses p with
              | Some l => max (length (steps p)) (length l)
              | None => 0
              end)).
Proof.
  split; [|split; [|split]].
  - destruct (select_cases fenv f) as [[H1 _] | (p0 & i & stp & _ & _ & _ & H1)];
      rewrite H1; cbn [fst snd]; [reflexivity|discriminate].
  - intros i info Hr.
    destruct (select_cases fenv f) as [[H1 _] | (p0 & i0 & stp & _ & Hp0 & Hfa & H1)];
      rewrite H1 in Hr |- *; cbn [fst snd] in Hr |- *; [discriminate|].
    injection Hr as <- _.
    rewrite Hp in Hp0; injection Hp0 as <-.
    exists stp; eexists; split; [exact Hfa|].
    rewrite update_plan_lookup; cbn [plans ftick]; rewrite Hp; cbn [option_map].
    split; [reflexivity|split; [reflexivity|]].
    rewrite statuses_of_set; apply length_in_progress_fallback_eq.
  - exact (mark_completed_result fenv f p Hp).
  - rewrite (plan_text_result fenv f p Hp).
    eexists; split; [reflexivity|].
    destruct (store_up fenv (flow_ticks f)).
    + split; [reflexivity|split; [reflexivity|discriminate]].
    + split; [reflexivity|split; [discriminate|]].
      split; [reflexivity|apply length_pad_stored].
Qed.

Lemma status_array_grows_witness :
  plans (sample_flow (Some []) (Some 0)) !! active_plan_id (sample_flow (Some []) (Some 0))
  = Some (sample_plan (Some []))
  /\ exists p', plans (snd (run_st (mark_step_completed (sample_fenv false (Run_Ok [] IDLE)))
                             (sample_flow (Some []) (Some 0))))
                  !! active_plan_id (sample_flow (Some []) (Some 0)) = Some p'
                /\ length (statuses_of p') = 1.
Proof.
  assert (Hp : plans (sample_flow (Some []) (Some 0)) !! active_plan_id (sample_flow (Some []) (Some 0))
               = Some (sample_plan (Some []))) by (vm_compute; reflexivity).
  split; [exact Hp|].
  destruct (status_array_grows (sample_fenv false (Run_Ok [] IDLE)) _ _ Hp)
    as (_ & _ & (p' & H1 & _ & H3) & _).
  exists p'; split; [exact H1|rewrite H3; reflexivity].
Defined.

Lemma status_at_pad_stored (p : Plan) (j : nat) :
  status_at (statuses_of (pad_stored p)) j = status_at (statuses_of p) j.
Proof.
  unfold pad_stored, statuses_of; cbn [step_statuses].
  destruct (step_statuses p); cbv [option_map default id]; [apply status_at_pad|reflexivity].
Qed.

(** [_get_plan_text] returns a text; the only change it makes to the plans
    is the padding written back by the rendering from storage. *)
Lemma get_plan_text_cases {Json} (fenv : FlowEnv Json) (f : Flow) :
  exists t, run_st (get_plan_text fenv) f = (Ok t, ftick f)
            \/ run_st (get_plan_text fenv) f
               = (Ok t, update_plan (active_plan_id f) pad_stored (ftick f)).
Proof.
  unfold get_plan_text, store_get, next_call; fsimp.
  destruct (store_up fenv (flow_ticks f)); fsimp.
  - destruct (plans f !! active_plan_id f); fsimp; eexists; left; reflexivity.
  - unfold generate_plan_text_from_storage; fsimp.
    destruct (plans f !! active_plan_id f) eqn:Ep; fsimp; eexists.
    + right; reflexivity.
    + left; reflexivity.
Qed.

(** [agent.run] either returns or raises; the agent's state afterwards is
    recorded either way. *)
Lemma run_agent_cases {Json} (fenv : FlowEnv Json) (ex : option pystr) (prompt : pystr) (f : Flow) :
  exists f', (exists r, run_st (run_agent fenv ex prompt) f = (Ok r, f'))
             \/ (exists e, run_st (run_agent fenv ex prompt) f = (Raise e, f')).
Proof.
  destruct ex as [key|]; cbn [run_agent]; [|eexists; right; eexists; reflexivity].
  unfold next_call; fsimp.
  destruct (executor_run fenv (flow_ticks f) key prompt); fsimp; eexists;
    [left|right]; eexists; reflexivity.
Qed.

Lemma finalize_plan_ok {Json} (fenv : FlowEnv Json) (f : Flow) :
  exists r f', run_st (finalize_plan fenv) f = (Ok r, f').
Proof.
  unfold finalize_plan; cbn [run_st bind].
  destruct (get_plan_text_cases fenv f) as [t [H|H]]; rewrite H; fsimp;
    unfold next_call; fsimp;
    destruct (summary_ask _ _ _); fsimp; try (do 2 eexists; reflexivity);
    match goal with
    | |- context [run_st (run_agent ?fe ?ex ?pr) ?s] =>
        destruct (run_agent_cases fe ex pr s) as [f1 [[r1 Hr]|[e1 Hr]]]; rewrite Hr; fsimp;
        do 2 eexists; reflexivity
    end.
Qed.

Lemma mark_step_completed_ok {Json} (fenv : FlowEnv Json) (f : Flow) :
  exists f', run_st (mark_step_completed fenv) f = (Ok tt, f').
Proof.
  unfold mark_step_completed; fsimp.
  destruct (current_step_index f) as [i|]; fsimp; [|eexists; reflexivity].
  destruct (store_mark_step_cases fenv i COMPLETED f)
    as [[e He]|[[_ He]|(p0 & l & _ & _ & _ & He)]]; rewrite He; fsimp;
    [|eexists; reflexivity..].
  destruct (plans f !! active_plan_id f); fsimp; eexists; reflexivity.
Qed.

Lemma execute_step_ok {Json} (fenv : FlowEnv Json) (ex : option pystr) (info : StepInfo)
    (f : Flow) :
  exists r f', run_st (execute_step fenv ex info) f = (Ok r, f').
Proof.
  unfold execute_step; cbn [run_st bind].
  destruct (get_plan_text_cases fenv f) as [t [H|H]]; rewrite H; fsimp;
    match goal with
    | |- context [run_st (run_agent ?fe ?ex ?pr) ?s] =>
        destruct (run_agent_cases fe ex pr s) as [f1 [[r1 Hr]|[e1 Hr]]]; rewrite Hr; fsimp
    end;
    try (do 2 eexists; reflexivity);
    match goal with
    | |- context [run_st (mark_step_completed ?fe) ?s] =>
        destruct (mark_step_completed_ok fe s) as [s' Hm]; rewrite Hm; fsimp;
        do 2 eexists; reflexivity
    end.
Qed.

Lemma get_executor_ok (t : option pystr) (f : Flow) :
  exists ex, run_st (get_executor t) f = (Ok ex, f).
Proof.
  unfold get_executor; fsimp.
  destruct t as [t|]; [destruct (nonempty t && _)|]; fsimp; eexists; reflexivity.
Qed.

(** No pass of the loop raises: it returns whether to stop and the result
    so far. *)
Lemma loop_iteration_ok {Json} (fenv : FlowEnv Json) (result : pystr) (f : Flow) :
  exists stop r f', run_st (loop_iteration fenv result) f = (Ok (stop, r), f').
Proof.
  unfold loop_iteration; cbn [run_st bind].
  destruct (select_cases fenv f) as [[H _]|(p & i & stp & _ & _ & _ & H)]; rewrite H; fsimp.
  - match goal with
    | |- context [run_st (finalize_plan ?fe) ?s] =>
        destruct (finalize_plan_ok fe s) as (r & f' & Hr); rewrite Hr; fsimp
    end.
    do 3 eexists; reflexivity.
  - match goal with
    | |- context [run_st (get_executor ?t) ?s] =>
        destruct (get_executor_ok t s) as (ex & Hx); rewrite Hx; fsimp
    end.
    match goal with
    | |- context [run_st (execute_step ?fe ?ex ?info) ?s] =>
        destruct (execute_step_ok fe ex info s) as (r & f' & Hr); rewrite Hr; fsimp
    end.
    do 3 eexists; reflexivity.
Qed.

(** ** C9 *)

(** C9: when the executor's [run] raises, [_execute_step] returns
    "Error executing step <i>: <message>", records the executor's state, and
    leaves the status read for every step of the active plan as it was (no
    step is marked completed); and no pass of the loop raises, so the loop
    goes on. *)
Theorem step_error_keeps_status {Json} (fenv : FlowEnv Json) (f : Flow) (key : pystr)
    (info : StepInfo)
    (Hraise : forall k prompt, exists e after, executor_run fenv k key prompt = Run_Raise e after) :
  (exists e after f',
     run_st (execute_step fenv (Some key) info) f
     = (Ok (lit "Error executing step " ++ show_index (current_step_index f) ++ lit ": "
            ++ exn_msg e), f')
     /\ current_step_index f' = current_step_index f
     /\ active_plan_id f' = active_plan_id f
     /\ agents f' !! key = Some after
     /\ (forall p, plans f !! active_plan_id f = Some p ->
         exists p', plans f' !! active_plan_id f = Some p'
                    /\ steps p' = steps p
                    /\ forall j, status_at (statuses_of p') j = status_at (statuses_of p) j))
  /\ (forall result f0, exists stop r f0', run_st (loop_iteration fenv result) f0 = (Ok (stop, r), f0')).
Proof.
  split; [|intros result f0; apply loop_iteration_ok].
  unfold execute_step; cbn [run_st bind].
  destruct (get_plan_text_cases fenv f) as [t [H|H]]; rewrite H; fsimp;
    unfold run_agent, next_call; fsimp;
    match goal with
    | |- context [executor_run fenv ?k key ?pr] =>
        destruct (Hraise k pr) as (e & after & He); rewrite He; fsimp
    end.
  - refine (ex_intro _ e (ex_intro _ after (ex_intro _ _ _))).
    split; [reflexivity|].
    split; [reflexivity|split; [reflexivity|split; [cbn [agents set_agents]; rewrite lookup_insert_eq; reflexivity|]]].
    intros p Hp; exists p.
    split; [exact Hp|split; reflexivity].
  - rewrite (update_plan_current (active_plan_id f) pad_stored (ftick f)).
    refine (ex_intro _ e (ex_intro _ after (ex_intro _ _ _))).
    split; [reflexivity|].
    cbn [current_step_index active_plan_id agents plans set_agents ftick].
    rewrite (update_plan_current (active_plan_id f) pad_stored (ftick f)),
      (update_plan_active (active_plan_id f) pad_stored (ftick f)).
    split; [reflexivity|split; [reflexivity|split; [rewrite lookup_insert_eq; reflexivity|]]].
    intros p Hp.
    rewrite update_plan_lookup; cbn [plans ftick]; rewrite Hp.
    eexists; split; [reflexivity|split; [reflexivity|apply status_at_pad_stored]].
Qed.

Lemma step_error_keeps_status_witness :
  (forall k prompt, exists e after,
     executor_run (sample_fenv false (Run_Raise (Exn RuntimeError (lit "boom") None) IDLE))
       k (lit "manus") prompt = Run_Raise e after)
  /\ exists e after f',
       run_st (execute_step (sample_fenv false (Run_Raise (Exn RuntimeError (lit "boom") None) IDLE))
                 (Some (lit "manus")) (MkStepInfo (lit "Execute task") None))
         (sample_flow (Some [COMPLETED]) (Some 1))
       = (Ok (lit "Error executing step " ++ show_index (Some 1) ++ lit ": " ++ exn_msg e), f')
       /\ agents f' !! lit "manus" = Some after.
Proof.
  assert (H : forall k prompt, exists e after,
     executor_run (sample_fenv false (Run_Raise (Exn RuntimeError (lit "boom") None) IDLE))
       k (lit "manus") prompt = Run_Raise e after) by (intros; do 2 eexists; reflexivity).
  split; [exact H|].
  destruct (step_error_keeps_status _ (sample_flow (Some [COMPLETED]) (Some 1)) _
              (MkStepInfo (lit "Execute task") None) H)
    as [(e & after & f' & Hr & _ & _ & Ha & _) _].
  refine (ex_intro _ e (ex_intro _ after (ex_intro _ f' (conj Hr Ha)))).
Defined.

(** ** C10 *)

(** C10: [execute] never raises: an exception of its body becomes
    "Execution failed: <message>" (a missing primary agent among them), and
    a plan missing after its creation gives "为: <input> 创建计划失败". *)
Theorem execute_never_raises {Json} (fenv : FlowEnv Json) (fuel : nat) (input : pystr)
    (f : Flow) :
  (forall e, fst (run_st (execute fenv fuel input) f) <> Raise e)
  /\ (forall e f', run_st (execute_body fenv fuel input) f = (Raise e, f') ->
      run_st (execute fenv fuel input) f = (Ok (lit "Execution failed: " ++ exn_msg e), f'))
  /\ (primary_agent f = None ->
      run_st (execute fenv fuel input) f
      = (Ok (lit "Execution failed: " ++ NO_PRIMARY_AGENT), f))
  /\ (forall f1, primary_agent f <> None -> nonempty input = true ->
      run_st (create_initial_plan fenv input) f = (Ok tt, f1) ->
      plans f1 !! active_plan_id f1 = None ->
      run_st (execute fenv fuel input) f
      = (Ok (lit "为: " ++ input ++ lit " 创建计划失败"), f1)).
Proof.
  split; [|split; [|split]].
  - intros e; unfold execute; cbn [run_st try_catch].
    destruct (run_st (execute_body fenv fuel input) f) as [[a|e'|] s]; cbn [run_st ret fst];
      discriminate.
  - intros e f' H; unfold execute; cbn [run_st try_catch]; rewrite H; reflexivity.
  - intros H; unfold execute, execute_body; cbn [run_st try_catch bind get].
    rewrite H; reflexivity.
  - intros f1 Hpa Hne Hc Hn; unfold execute, execute_body; cbn [run_st try_catch bind get].
    destruct (primary_agent f) as [k|]; [|congruence].
    rewrite Hne; cbn [run_st bind get]; rewrite Hc; cbn [run_st bind get ret].
    rewrite Hn, bool_decide_eq_false_2 by (intros [? ?]; discriminate).
    reflexivity.
Qed.

(** * Further properties of the code *)

(** ** The tool-calling agent (app/agent/toolcall.py, app/agent/react.py) *)

Lemma lit_invalid_command :
  lit "Error: Invalid command format" = lit "Error: " ++ lit "Invalid command format".
Proof. vm_compute; reflexivity. Qed.

Lemma lit_unknown_tool :
  lit "Error: Unknown tool '" = lit "Error: " ++ lit "Unknown tool '".
Proof. vm_compute; reflexivity. Qed.

(** X1: under the NONE tool choice, an answer with a non-empty text and a
    non-empty list of tool calls makes [think] return true with those calls
    stored as pending ([self.tool_calls] is set before the policy is looked
    at), so [step] goes on to [act], which executes every proposed call in
    order. *)
Theorem none_policy_still_runs_calls {Json} (cfg : AgentConfig) (env : ToolEnv Json)
    (a : Agent) (c : pystr) (calls : list ToolCall)
    (Hnone : tool_choices cfg = TC_NONE) (Hc : nonempty c = true) (Hcalls : calls <> []) :
  fst (run_st (think cfg (Ask_Ok (Some (MkResponse (Some c) calls)))) a) = Ok true
  /\ tool_calls (snd (run_st (think cfg (Ask_Ok (Some (MkResponse (Some c) calls)))) a)) = calls
  /\ exists ms outs a',
       run_st (step cfg env (Ask_Ok (Some (MkResponse (Some c) calls)))) a
       = (Ok (join (nl ++ nl) outs), a')
       /\ delivers cfg env (snd (run_st (think cfg (Ask_Ok (Some (MkResponse (Some c) calls)))) a))
            calls ms outs a'.
Proof.
  assert (Ht : exists a1, run_st (think cfg (Ask_Ok (Some (MkResponse (Some c) calls)))) a
                          = (Ok true, a1) /\ tool_calls a1 = calls).
  { unfold think, choice_is_none, add_message; rewrite Hnone; cbn [resp_tool_calls resp_content].
    destruct (nonempty (next_step_prompt cfg)); simp; rewrite Hc; simp;
      eexists; split; reflexivity. }
  destruct Ht as (a1 & Ht & Hc1).
  rewrite Ht; cbn [fst snd]; split; [reflexivity|split; [exact Hc1|]].
  destruct (act_loop_delivers cfg env calls a1) as (ms & outs & a' & Hr & Hd & _).
  exists ms, outs, a'; split; [|exact Hd].
  unfold step; cbn [run_st bind]; rewrite Ht; cbn [negb].
  unfold act; cbn [run_st bind get]; rewrite Hc1.
  destruct calls as [|c0 cs]; [congruence|].
  cbn [run_st bind]; rewrite Hr; reflexivity.
Qed.

Lemma none_policy_still_runs_calls_witness :
  tool_choices (sample_cfg TC_NONE MO_None) = TC_NONE
  /\ nonempty (lit "hi") = true
  /\ [sample_bash_call] <> []
  /\ (exists ms outs a',
        run_st (step (sample_cfg TC_NONE MO_None) sample_env
                  (Ask_Ok (Some (MkResponse (Some (lit "hi")) [sample_bash_call]))))
          (sample_agent [] [])
        = (Ok (join (nl ++ nl) outs), a')
        /\ delivers (sample_cfg TC_NONE MO_None) sample_env
             (snd (run_st (think (sample_cfg TC_NONE MO_None)
                             (Ask_Ok (Some (MkResponse (Some (lit "hi")) [sample_bash_call]))))
                    (sample_agent [] [])))
             [sample_bash_call] ms outs a')
  /\ tool_ticks (snd (run_st (step (sample_cfg TC_NONE MO_None) sample_env
                  (Ask_Ok (Some (MkResponse (Some (lit "hi")) [sample_bash_call]))))
          (sample_agent [] []))) = 1%nat.
Proof.
  assert (H1 : tool_choices (sample_cfg TC_NONE MO_None) = TC_NONE) by reflexivity.
  assert (H2 : nonempty (lit "hi") = true) by (vm_compute; reflexivity).
  assert (H3 : [sample_bash_call] <> []) by discriminate.
  split; [exact H1|split; [exact H2|split; [exact H3|split]]].
  - exact (proj2 (proj2 (none_policy_still_runs_calls (sample_cfg TC_NONE MO_None) sample_env
                           (sample_agent [] []) (lit "hi") [sample_bash_call] H1 H2 H3))).
  - vm_compute; reflexivity.
Defined.

(** X2: under AUTO or REQUIRED, [think] logs the next-step prompt (if any)
    and one assistant message carrying the answer's text (empty if missing)
    and exactly its tool calls, stores those calls, and returns true when
    there are calls, true under REQUIRED, and whether the text is non-empty
    under AUTO. A missing answer (any policy) logs "Error encountered while
    processing: No response received from the LLM", clears the pending
    calls, returns false, and [step] then returns "Thinking complete - no
    action needed". *)
Theorem think_records_answer {Json} (cfg : AgentConfig) (env : ToolEnv Json)
    (resp : Response) (a : Agent) :
  (tool_choices cfg <> TC_NONE ->
   run_st (think cfg (Ask_Ok (Some resp))) a
   = (Ok (if nonempty_list (resp_tool_calls resp) then true
          else match tool_choices cfg with
               | TC_REQUIRED => true
               | _ => nonempty (default [] (resp_content resp))
               end),
      MkAgent (messages a ++ prompt_messages cfg
               ++ [MkMessage RAssistant (Some (default [] (resp_content resp)))
                     (resp_tool_calls resp) None None None])
              (state a) (resp_tool_calls resp) (current_base64_image a) (tool_ticks a)))
  /\ run_st (think cfg (Ask_Ok None)) a
     = (Ok false,
        MkAgent (messages a ++ prompt_messages cfg
                 ++ [assistant_message (lit "Error encountered while processing: "
                                        ++ lit "No response received from the LLM")])
                (state a) [] (current_base64_image a) (tool_ticks a))
  /\ fst (run_st (step cfg env (Ask_Ok None)) a)
     = Ok (lit "Thinking complete - no action needed").
Proof.
  split; [|split].
  - intros Hch; destruct resp as [rc calls].
    unfold think, prompt_messages, choice_is_none, choice_is_auto, choice_is_required,
      add_message.
    destruct (tool_choices cfg); [congruence| |];
      destruct (nonempty (next_step_prompt cfg)); destruct rc as [c|]; destruct calls;
      simp; rewrite <- ?app_assoc; reflexivity.
  - unfold think, prompt_messages, add_message.
    destruct (nonempty (next_step_prompt cfg)); simp; rewrite <- ?app_assoc; reflexivity.
  - unfold step, think, add_message.
    destruct (nonempty (next_step_prompt cfg)); reflexivity.
Qed.

(** The early refusals of [execute_tool]: an "Error: ..." observation,
    with the agent unchanged. *)
Lemma execute_tool_refused {Json} (cfg : AgentConfig) (env : ToolEnv Json)
    (command : ToolCall) (a : Agent) :
  fn_name command = [] \/ fn_name command ∉ tool_map_names cfg
  \/ json_loads env (arguments_or_default command) = None ->
  exists msg, run_st (execute_tool cfg env command) a = (Ok (lit "Error: " ++ msg), a).
Proof.
  unfold execute_tool, invoke_tool.
  destruct command as [id name argstr]; cbn [fn_name].
  intros Hcase.
  destruct name as [|c0 name].
  { exists (lit "Invalid command format"); simp; rewrite lit_invalid_command; reflexivity. }
  simp.
  case_bool_decide as Ein; simp.
  2: { exists (lit "Unknown tool '" ++ (c0 :: name) ++ lit "'").
       rewrite lit_unknown_tool, <- app_assoc; reflexivity. }
  destruct Hcase as [Hc|[Hc|Hc]]; [discriminate|contradiction|].
  cbn [fn_name] in Hc; rewrite Hc; simp.
  eexists; reflexivity.
Qed.

(** X3: [execute_tool] refuses a call with an empty name, an unknown name
    or unparseable arguments with an "Error: ..." observation, invoking no
    tool and leaving the agent unchanged. When the tool itself raises, the
    observation is "Error: ⚠️ Tool '<name>' encountered a problem: <msg>"
    and only the invocation count changes; a [JSONDecodeError] raised inside
    the tool is reported as an argument parsing error. *)
Theorem execute_tool_refusals {Json} (cfg : AgentConfig) (env : ToolEnv Json)
    (command : ToolCall) (a : Agent) :
  (fn_name command = [] \/ fn_name command ∉ tool_map_names cfg
   \/ json_loads env (arguments_or_default command) = None ->
   exists msg, run_st (execute_tool cfg env command) a = (Ok (lit "Error: " ++ msg), a))
  /\ (forall args e, fn_name command <> [] -> fn_name command ∈ tool_map_names cfg ->
      json_loads env (arguments_or_default command) = Some args ->
      tool_invoke env (tool_ticks a) (fn_name command) args = TO_Raise e ->
      run_st (execute_tool cfg env command) a
      = (Ok (lit "Error: "
             ++ match exn_cls e with
                | JSONDecodeError =>
                    lit "Error parsing arguments for " ++ fn_name command
                    ++ lit ": Invalid JSON format"
                | _ => warning_sign ++ lit " Tool '" ++ fn_name command
                       ++ lit "' encountered a problem: " ++ exn_msg e
                end), tick a)).
Proof.
  split; [apply execute_tool_refused|].
  unfold execute_tool, invoke_tool.
  destruct command as [id name argstr]; cbn [fn_name].
  intros args e Hne Hin Hj Hinv.
  destruct name as [|c0 name]; [congruence|]; simp.
  case_bool_decide; [|contradiction]; simp.
  rewrite Hj; simp; rewrite Hinv; simp.
  destruct (exn_cls e); reflexivity.
Qed.

(** X4: [execute_tool] never changes the message log or the pending calls,
    invokes at most one tool, and changes the agent's state only to
    FINISHED. *)
Theorem execute_tool_footprint {Json} (cfg : AgentConfig) (env : ToolEnv Json)
    (command : ToolCall) (a : Agent) :
  messages (snd (run_st (execute_tool cfg env command) a)) = messages a
  /\ tool_calls (snd (run_st (execute_tool cfg env command) a)) = tool_calls a
  /\ (state (snd (run_st (execute_tool cfg env command) a)) = state a
      \/ state (snd (run_st (execute_tool cfg env command) a)) = FINISHED)
  /\ (tool_ticks (snd (run_st (execute_tool cfg env command) a)) = tool_ticks a
      \/ tool_ticks (snd (run_st (execute_tool cfg env command) a)) = S (tool_ticks a)).
Proof.
  unfold execute_tool, handle_special_tool, invoke_tool.
  destruct command as [id name args]; cbn [fn_name].
  destruct (nonempty name); simp; [|repeat split; auto].
  destruct (bool_decide (name ∈ tool_map_names cfg)); simp; [|repeat split; auto].
  destruct (json_loads env _) as [x|]; simp; [|repeat split; auto].
  destruct (tool_invoke env _ name x) as [r|e]; simp;
    [|destruct (exn_cls e); simp; repeat split; auto].
  destruct (negb (is_special_tool cfg name)); simp;
    [|destruct (should_finish_execution cfg name r); simp];
    destruct (field_truthy _); simp; run_format; simp;
    try destruct (exn_cls _); simp; repeat split; auto.
Qed.

(** ** The planning flow (app/flow/planning.py) *)

Lemma tag_run_spec (l : pystr) :
  l = (tag_run l).1 ++ (tag_run l).2
  /\ Forall (fun c => is_tag_char c = true) (tag_run l).1
  /\ match (tag_run l).2 with [] => True | d :: _ => is_tag_char d = false end.
Proof.
  induction l as [|c r IH]; cbn [tag_run]; [repeat split; constructor|].
  destruct (is_tag_char c) eqn:Ec.
  - destruct (tag_run r) as [run rest]; cbn [fst snd] in *.
    destruct IH as (-> & Hf & Hd).
    split; [reflexivity|split; [constructor; assumption|exact Hd]].
  - cbn [fst snd]; split; [reflexivity|split; [constructor|exact Ec]].
Qed.

Lemma tag_run_app (t rest : pystr) :
  Forall (fun c => is_tag_char c = true) t ->
  match rest with [] => True | d :: _ => is_tag_char d = false end ->
  tag_run (t ++ rest) = (t, rest).
Proof.
  intros Ht Hr; induction Ht as [|c t Hc Ht IH]; cbn [app tag_run].
  - destruct rest as [|d rest]; [reflexivity|cbn [tag_run]; rewrite Hr; reflexivity].
  - rewrite Hc, IH; reflexivity.
Qed.

Lemma find_type_tag_sound (l t : pystr) :
  find_type_tag l = Some t ->
  t <> [] /\ Forall (fun c => is_tag_char c = true) t
  /\ exists pre post, l = pre ++ [91%N] ++ t ++ [93%N] ++ post.
Proof.
  induction l as [|c r IH]; cbn [find_type_tag]; [discriminate|].
  assert (Hrec : find_type_tag r = Some t ->
                 t <> [] /\ Forall (fun c => is_tag_char c = true) t
                 /\ exists pre post, c :: r = pre ++ [91%N] ++ t ++ [93%N] ++ post).
  { intros H; destruct (IH H) as (Hne & Hf & pre & post & ->).
    split; [exact Hne|split; [exact Hf|exists (c :: pre), post; reflexivity]]. }
  destruct (c =? 91)%N eqn:Ec; [|exact Hrec].
  destruct (tag_run_spec r) as (Hr & Hf & Hd).
  destruct (tag_run r) as [run rest]; cbn [fst snd] in *.
  destruct run as [|x xs]; [exact Hrec|].
  destruct rest as [|d post]; [exact Hrec|].
  destruct (d =? 93)%N eqn:Ed; [|exact Hrec].
  intros [= <-]; apply N.eqb_eq in Ec; apply N.eqb_eq in Ed; subst c d.
  split; [discriminate|split; [exact Hf|exists [], post; rewrite Hr; reflexivity]].
Qed.

Lemma find_type_tag_complete (pre t post : pystr) :
  Forall (fun c => c <> 91%N) pre -> t <> [] ->
  Forall (fun c => is_tag_char c = true) t ->
  find_type_tag (pre ++ [91%N] ++ t ++ [93%N] ++ post) = Some t.
Proof.
  intros Hpre Hne Ht; induction Hpre as [|c pre Hc _ IH]; cbn [app find_type_tag].
  - rewrite (tag_run_app t (93%N :: post) Ht eq_refl).
    destruct t as [|x xs]; [congruence|reflexivity].
  - replace (c =? 91)%N with false by (symmetry; apply N.eqb_neq; exact Hc).
    exact IH.
Qed.

(** X5: the type tag of a step is found exactly as
    [re.search(r"\[([A-Z_]+)\]", step)]: a found tag is a non-empty run of
    [A-Z_] standing between '[' and ']' in the step text; and when the text
    has a bracketed such run with no '[' before it, that run, lower-cased,
    is the step's type. *)
Theorem step_type_tag_found :
  (forall (step t : pystr), find_type_tag step = Some t ->
     t <> [] /\ Forall (fun c => is_tag_char c = true) t
     /\ exists pre post, step = pre ++ [91%N] ++ t ++ [93%N] ++ post)
  /\ (forall (pre t post : pystr), Forall (fun c => c <> 91%N) pre -> t <> [] ->
      Forall (fun c => is_tag_char c = true) t ->
      info_type (step_info_of (pre ++ [91%N] ++ t ++ [93%N] ++ post)) = Some (lower t)).
Proof.
  split; [exact find_type_tag_sound|].
  intros pre t post Hpre Hne Ht; unfold step_info_of; cbn [info_type].
  rewrite find_type_tag_complete by assumption; reflexivity.
Qed.

Lemma primary_agent_present (f : Flow) (k : pystr) :
  primary_agent f = Some k -> is_Some (agents f !! k).
Proof.
  unfold primary_agent; destruct (primary_agent_key f) as [k0|]; [|discriminate].
  case_bool_decide; [intros [= <-]; assumption|discriminate].
Qed.

(** X6: [get_executor] changes nothing and returns only keys of agents the
    flow has: a step type that is non-empty and names an agent is chosen
    itself; [None] is returned only when no executor key names an agent and
    there is no primary agent. *)
Theorem get_executor_returns_agent (t : option pystr) (f : Flow) :
  exists ex, run_st (get_executor t) f = (Ok ex, f)
   /\ (forall s, t = Some s -> nonempty s = true -> is_Some (agents f !! s) -> ex = Some s)
   /\ (forall k, ex = Some k -> is_Some (agents f !! k))
   /\ (ex = None ->
       Forall (fun k => agents f !! k = None) (executor_keys f) /\ primary_agent f = None).
Proof.
  set (fb := match list_find (fun k => is_Some (agents f !! k)) (executor_keys f) with
             | Some (_, k) => Some k
             | None => primary_agent f
             end).
  assert (Hfb : (forall k, fb = Some k -> is_Some (agents f !! k))
                /\ (fb = None -> Forall (fun k => agents f !! k = None) (executor_keys f)
                                 /\ primary_agent f = None)).
  { subst fb.
    destruct (list_find (fun k => is_Some (agents f !! k)) (executor_keys f))
      as [[i k0]|] eqn:E.
    - apply list_find_Some in E as (_ & Hk & _).
      split; [intros k [= <-]; exact Hk|discriminate].
    - apply list_find_None in E.
      split; [exact (primary_agent_present f)|].
      intros Hp; split; [|exact Hp].
      eapply Forall_impl; [exact E|]; intros k Hk; apply eq_None_not_Some; exact Hk. }
  unfold get_executor; fsimp.
  destruct t as [s|].
  - destruct (nonempty s) eqn:Es; cbn [andb];
      [case_bool_decide as Hs; fsimp|fsimp].
    + exists (Some s); split; [reflexivity|split; [intros s' [= <-] _ _; reflexivity|]].
      split; [intros k [= <-]; exact Hs|discriminate].
    + exists fb; split; [reflexivity|split; [|exact Hfb]].
      intros s' [= <-] _ Hs'; contradiction.
    + exists fb; split; [reflexivity|split; [|exact Hfb]].
      intros s' [= <-] Hne _; congruence.
  - exists fb; split; [reflexivity|split; [discriminate|exact Hfb]].
Qed.

Lemma pad_to_idem {A} (x : A) (n : nat) (l : list A) :
  pad_to x n (pad_to x n l) = pad_to x n l.
Proof.
  unfold pad_to at 1; rewrite length_pad_to.
  replace (n - max n (length l)) with 0 by lia; apply app_nil_r.
Qed.

Lemma pad_stored_idem (p : Plan) : pad_stored (pad_stored p) = pad_stored p.
Proof.
  destruct p as [t s st nt]; unfold pad_stored; cbn [title steps step_statuses step_notes].
  destruct st, nt; cbn [option_map]; rewrite ?pad_to_idem; reflexivity.
Qed.

Lemma update_plan_idem (pid : pystr) (g : Plan -> Plan) (f : Flow) :
  (forall p, g (g p) = g p) ->
  update_plan pid g (update_plan pid g f) = update_plan pid g f.
Proof.
  intros Hg; unfold update_plan; destruct (plans f !! pid) as [p|] eqn:E;
    [|rewrite E; reflexivity].
  cbn [plans set_plans]; rewrite lookup_insert_eq, insert_insert_eq, Hg; reflexivity.
Qed.

(** X7: rendering the plan from storage twice gives the same text and
    leaves the flow as the first rendering left it: the padding it writes
    back is already complete. *)
Theorem plan_text_from_storage_stable {Json} (fenv : FlowEnv Json) (f : Flow) :
  run_st (generate_plan_text_from_storage fenv)
    (snd (run_st (generate_plan_text_from_storage fenv) f))
  = run_st (generate_plan_text_from_storage fenv) f.
Proof.
  unfold generate_plan_text_from_storage; fsimp.
  destruct (plans f !! active_plan_id f) as [p|] eqn:Ep; fsimp; [|rewrite Ep; reflexivity].
  rewrite update_plan_active, update_plan_lookup, Ep; cbn [option_map]; fsimp.
  rewrite update_plan_idem by exact pad_stored_idem.
  assert (Hs : pad_to NOT_STARTED (length (steps (pad_stored p))) (statuses_of (pad_stored p))
               = pad_to NOT_STARTED (length (steps p)) (statuses_of p)).
  { unfold pad_stored, statuses_of; cbn [steps step_statuses].
    destruct (step_statuses p); cbv [option_map default id]; rewrite ?pad_to_idem; reflexivity. }
  assert (Hn : pad_to [] (length (steps (pad_stored p))) (default [] (step_notes (pad_stored p)))
               = pad_to [] (length (steps p)) (default [] (step_notes p))).
  { unfold pad_stored; cbn [steps step_notes].
    destruct (step_notes p); cbv [option_map default id]; rewrite ?pad_to_idem; reflexivity. }
  rewrite Hs, Hn.
  change (title (pad_stored p)) with (title p).
  change (steps (pad_stored p)) with (steps p).
  reflexivity.
Qed.

Lemma update_plan_lookup_ne (pid q : pystr) (g : Plan -> Plan) (f : Flow) :
  q <> pid -> plans (update_plan pid g f) !! q = plans f !! q.
Proof.
  intros Hq; unfold update_plan; destruct (plans f !! pid); [|reflexivity].
  cbn [plans set_plans]; apply lookup_insert_ne; congruence.
Qed.

Lemma update_plan_agents (pid : pystr) (g : Plan -> Plan) (f : Flow) :
  agents (update_plan pid g f) = agents f.
Proof. unfold update_plan; destruct (plans f !! pid); reflexivity. Qed.

Lemma update_plan_executor_keys (pid : pystr) (g : Plan -> Plan) (f : Flow) :
  executor_keys (update_plan pid g f) = executor_keys f.
Proof. unfold update_plan; destruct (plans f !! pid); reflexivity. Qed.

Lemma status_at_insert (l : list pystr) (i j : nat) (s : pystr) :
  (i < length l -> status_at (<[i := s]> l) i = s)
  /\ (j <> i -> status_at (<[i := s]> l) j = status_at l j).
Proof.
  unfold status_at; split.
  - intros Hi; rewrite list_lookup_insert_eq by exact Hi; reflexivity.
  - intros Hj; rewrite list_lookup_insert_ne by congruence; reflexivity.
Qed.

Lemma completed_fallback_status (i : nat) (sts : list pystr) :
  status_at (completed_fallback i sts) i = COMPLETED
  /\ forall j, j <> i -> status_at (completed_fallback i sts) j = status_at sts j.
Proof.
  unfold completed_fallback; split.
  - apply status_at_insert with (j := 0); rewrite length_pad_to; lia.
  - intros j Hj; rewrite (proj2 (status_at_insert _ i j _) Hj); apply status_at_pad.
Qed.

(** What [_mark_step_completed] does to a present plan. *)
Lemma mark_completed_effect {Json} (fenv : FlowEnv Json) (f : Flow) (i : nat) (p : Plan) :
  current_step_index f = Some i -> plans f !! active_plan_id f = Some p ->
  fst (run_st (mark_step_completed fenv) f) = Ok tt
  /\ active_plan_id (snd (run_st (mark_step_completed fenv) f)) = active_plan_id f
  /\ current_step_index (snd (run_st (mark_step_completed fenv) f)) = current_step_index f
  /\ agents (snd (run_st (mark_step_completed fenv) f)) = agents f
  /\ (forall q, q <> active_plan_id f ->
      plans (snd (run_st (mark_step_completed fenv) f)) !! q = plans f !! q)
  /\ exists p', plans (snd (run_st (mark_step_completed fenv) f)) !! active_plan_id f = Some p'
     /\ title p' = title p /\ steps p' = steps p /\ step_notes p' = step_notes p
     /\ status_at (statuses_of p') i = COMPLETED
     /\ forall j, j <> i -> status_at (statuses_of p') j = status_at (statuses_of p) j.
Proof.
  intros Hi Hp; unfold mark_step_completed; fsimp; rewrite Hi; fsimp.
  destruct (store_mark_step_cases fenv i COMPLETED f)
    as [[e He]|[[Hn _]|(p0 & l & Hp0 & Hl & Hil & He)]]; rewrite ?He; fsimp.
  - rewrite Hp; fsimp.
    rewrite update_plan_active, update_plan_current, update_plan_agents.
    split; [reflexivity|split; [reflexivity|split; [exact Hi|split; [reflexivity|split]]]].
    + intros q Hq; rewrite update_plan_lookup_ne by exact Hq; reflexivity.
    + rewrite update_plan_lookup; cbn [plans ftick]; rewrite Hp; cbn [option_map].
      eexists; split; [reflexivity|].
      rewrite statuses_of_set.
      destruct (completed_fallback_status i (statuses_of p)) as [H1 H2].
      repeat apply conj; [reflexivity..|exact H1|exact H2].
  - congruence.
  - rewrite Hp in Hp0; injection Hp0 as <-.
    rewrite update_plan_active, update_plan_current, update_plan_agents.
    split; [reflexivity|split; [reflexivity|split; [exact Hi|split; [reflexivity|split]]]].
    + intros q Hq; rewrite update_plan_lookup_ne by exact Hq; reflexivity.
    + rewrite update_plan_lookup; cbn [plans ftick]; rewrite Hp; cbn [option_map].
      eexists; split; [reflexivity|].
      rewrite statuses_of_set.
      assert (Hs : statuses_of p = l) by (unfold statuses_of; rewrite Hl; reflexivity).
      rewrite Hs.
      repeat apply conj; [reflexivity..| |].
      * apply (status_at_insert l i 0); exact Hil.
      * intros j Hj; apply (status_at_insert l i j); exact Hj.
Qed.

(** X8: [_mark_step_completed] does nothing without a current step. With a
    current step [i] and a present active plan, it marks step [i] completed,
    keeps the title, the steps, the notes and the status read for every
    other step, and leaves the other plans alone, whether the plan store
    answers or the fallback runs. *)
Theorem mark_completed_sets_current_only {Json} (fenv : FlowEnv Json) (f : Flow) :
  (current_step_index f = None -> run_st (mark_step_completed fenv) f = (Ok tt, f))
  /\ (forall i p, current_step_index f = Some i -> plans f !! active_plan_id f = Some p ->
      fst (run_st (mark_step_completed fenv) f) = Ok tt
      /\ (forall q, q <> active_plan_id f ->
          plans (snd (run_st (mark_step_completed fenv) f)) !! q = plans f !! q)
      /\ exists p', plans (snd (run_st (mark_step_completed fenv) f)) !! active_plan_id f = Some p'
         /\ title p' = title p /\ steps p' = steps p /\ step_notes p' = step_notes p
         /\ status_at (statuses_of p') i = COMPLETED
         /\ forall j, j <> i -> status_at (statuses_of p') j = status_at (statuses_of p) j).
Proof.
  split.
  - intros Hn; unfold mark_step_completed; fsimp; rewrite Hn; reflexivity.
  - intros i p Hi Hp.
    destruct (mark_completed_effect fenv f i p Hi Hp) as (H1 & _ & _ & _ & H5 & H6).
    split; [exact H1|split; [exact H5|exact H6]].
Qed.

Lemma first_active_from_none (k : nat) (stps sts : list pystr) :
  first_active_from k stps sts = None
  <-> forall j, j < length stps -> is_active (status_at sts (k + j)) = false.
Proof.
  revert k; induction stps as [|s stps IH]; intros k; cbn [first_active_from length].
  - split; [intros _ j Hj; lia|reflexivity].
  - destruct (is_active (status_at sts k)) eqn:E; split.
    + discriminate.
    + intros H; specialize (H 0 ltac:(lia)); rewrite Nat.add_0_r, E in H; discriminate.
    + intros H j Hj; destruct j as [|j]; [rewrite Nat.add_0_r; exact E|].
      replace (k + S j) with (S k + j) by lia; apply IH; [exact H|lia].
    + intros H; apply IH; intros j Hj.
      replace (S k + j) with (k + S j) by lia; apply H; lia.
Qed.

(** X9: [_get_current_step_info] reports no current step exactly when the
    active plan id is empty, the plan is missing, or none of its steps has an
    active status (missing entries count as not started); it then leaves the
    flow unchanged. *)
Theorem select_finds_no_step {Json} (fenv : FlowEnv Json) (f : Flow) :
  (fst (run_st (get_current_step_info fenv) f) = Ok None
   <-> nonempty (active_plan_id f) = false
       \/ plans f !! active_plan_id f = None
       \/ exists p, plans f !! active_plan_id f = Some p
          /\ forall j, j < length (steps p) -> is_active (status_at (statuses_of p) j) = false)
  /\ (fst (run_st (get_current_step_info fenv) f) = Ok None ->
      snd (run_st (get_current_step_info fenv) f) = f).
Proof.
  destruct (select_cases fenv f) as [[H Hfa]|(p & i & stp & Hne & Hp & Hfa & H)];
    rewrite H; cbn [fst snd].
  - split; [|intros _; reflexivity].
    split; [intros _|intros _; reflexivity].
    destruct (nonempty (active_plan_id f)) eqn:Ene; [|left; reflexivity].
    destruct (plans f !! active_plan_id f) as [p|] eqn:Ep; [|right; left; reflexivity].
    right; right; exists p; split; [reflexivity|].
    intros j Hj; exact (proj1 (first_active_from_none 0 _ _) (Hfa p eq_refl eq_refl) j Hj).
  - split; [|discriminate].
    split; [discriminate|].
    destruct (first_active_from_spec _ _ _ _ _ Hfa) as (_ & Hs & Ha & _).
    rewrite Nat.sub_0_r in Hs.
    intros [Hc|[Hc|(p' & Hp' & Hall)]]; [congruence|congruence|].
    rewrite Hp in Hp'; injection Hp' as <-.
    apply lookup_lt_Some in Hs.
    rewrite Hall in Ha by exact Hs; discriminate.
Qed.

Lemma planning_calls_unparsed {Json} (fenv : FlowEnv Json) (calls : list ToolCall) (f : Flow) :
  Forall (fun c => fn_name c = PLANNING -> flow_json_loads fenv (fn_arguments c) = None) calls ->
  run_st (planning_calls fenv calls) f = (Ok false, f).
Proof.
  induction 1 as [|c calls Hc _ IH]; cbn [planning_calls]; [reflexivity|].
  case_bool_decide as Hn; [rewrite (Hc Hn)|]; exact IH.
Qed.

(** X10: of the answer's tool calls, [_create_initial_plan] executes only
    the first "planning" call whose arguments parse: calls before it are
    skipped, calls after it are never executed. Without such a call it
    reports no plan and changes nothing. *)
Theorem planning_calls_first_parseable {Json} (fenv : FlowEnv Json) :
  (forall calls f,
     Forall (fun c => fn_name c = PLANNING -> flow_json_loads fenv (fn_arguments c) = None) calls ->
     run_st (planning_calls fenv calls) f = (Ok false, f))
  /\ (forall pre c post args f,
      Forall (fun c' => fn_name c' = PLANNING -> flow_json_loads fenv (fn_arguments c') = None) pre ->
      fn_name c = PLANNING -> flow_json_loads fenv (fn_arguments c) = Some args ->
      run_st (planning_calls fenv (pre ++ c :: post)) f
      = match planning_execute fenv (flow_ticks f) args (active_plan_id f) (plans f) with
        | PO_Ok ps => (Ok true, set_plans ps (ftick f))
        | PO_Raise e => (Raise e, ftick f)
        end).
Proof.
  split; [intros calls f; apply planning_calls_unparsed|].
  intros pre c post args f Hpre Hn Hj.
  induction Hpre as [|c' pre Hc' _ IH]; cbn [app planning_calls].
  - rewrite bool_decide_eq_true_2 by exact Hn; rewrite Hj.
    unfold next_call; fsimp.
    destruct (planning_execute _ _ _ _ _); reflexivity.
  - case_bool_decide as Hn'; [rewrite (Hc' Hn')|]; exact IH.
Qed.

(** X11: an empty answer from the language model makes [execute] (with a
    primary agent and a non-empty request) return "Execution failed:
    'NoneType' object has no attribute 'tool_calls'"; an answer without a
    parseable "planning" call makes [_create_initial_plan] create the default
    plan "Plan for: <request>" with its three default steps. *)
Theorem create_plan_fallbacks {Json} (fenv : FlowEnv Json) (fuel : nat) (request : pystr)
    (f : Flow) :
  (plan_ask fenv (flow_ticks f) request = Ask_Ok None -> primary_agent f <> None ->
   nonempty request = true ->
   run_st (execute fenv fuel request) f
   = (Ok (lit "Execution failed: " ++ lit "'NoneType' object has no attribute 'tool_calls'"),
      ftick f))
  /\ (forall resp, plan_ask fenv (flow_ticks f) request = Ask_Ok (Some resp) ->
      Forall (fun c => fn_name c = PLANNING -> flow_json_loads fenv (fn_arguments c) = None)
        (resp_tool_calls resp) ->
      run_st (create_initial_plan fenv request) f
      = run_st (store_create fenv (active_plan_id f) (default_title request) default_steps)
          (ftick f)).
Proof.
  split.
  - intros Hask Hpa Hreq.
    unfold execute, execute_body; fsimp.
    destruct (primary_agent f) as [k|]; [|congruence]; fsimp.
    rewrite Hreq; fsimp.
    unfold create_initial_plan, next_call; fsimp.
    rewrite Hask; reflexivity.
  - intros resp Hask Hall.
    unfold create_initial_plan, next_call; fsimp.
    rewrite Hask; fsimp.
    rewrite (planning_calls_unparsed fenv _ (ftick f) Hall); reflexivity.
Qed.

Lemma update_plan_missing (pid : pystr) (g : Plan -> Plan) (f : Flow) :
  plans f !! pid = None -> update_plan pid g f = f.
Proof. intros H; unfold update_plan; rewrite H; reflexivity. Qed.

Lemma get_executor_first_key (f : Flow) (key : pystr) (rest : list pystr) :
  executor_keys f = key :: rest -> is_Some (agents f !! key) ->
  run_st (get_executor None) f = (Ok (Some key), f).
Proof.
  intros Hk Ha; unfold get_executor; fsimp; rewrite Hk; cbn [list_find].
  rewrite decide_True by exact Ha; reflexivity.
Qed.

(** X12: when the first active step has no type tag and the first executor
    key names an agent whose [run] returns [r] and leaves it FINISHED, the
    loop of [execute] runs that one step, marks it completed and stops with
    the result [r] followed by a newline, without finalizing the plan. *)
Theorem loop_stops_when_executor_finishes {Json} (fenv : FlowEnv Json) (fuel : nat) (f : Flow)
    (p : Plan) (i : nat) (stp key r : pystr) (rest : list pystr)
    (Hne : nonempty (active_plan_id f) = true)
    (Hp : plans f !! active_plan_id f = Some p)
    (Hfa : first_active (steps p) (statuses_of p) = Some (i, stp))
    (Htag : find_type_tag stp = None)
    (Hkeys : executor_keys f = key :: rest)
    (Hkey : is_Some (agents f !! key))
    (Hrun : forall k prompt, executor_run fenv k key prompt = Run_Ok r FINISHED) :
  fst (run_st (execute_loop fenv (S fuel) []) f) = Ok (r ++ nl)
  /\ agents (snd (run_st (execute_loop fenv (S fuel) []) f)) !! key = Some FINISHED
  /\ exists p', plans (snd (run_st (execute_loop fenv (S fuel) []) f)) !! active_plan_id f = Some p'
     /\ steps p' = steps p /\ status_at (statuses_of p') i = COMPLETED.
Proof.
  cbn [execute_loop]; unfold loop_iteration; cbn [run_st bind].
  destruct (select_cases fenv f) as [[H Hnone]|(p0 & i0 & stp0 & _ & Hp0 & Hfa0 & H)].
  { rewrite (Hnone p Hne Hp) in Hfa; discriminate. }
  rewrite Hp in Hp0; injection Hp0 as <-; rewrite Hfa in Hfa0; injection Hfa0 as <- <-.
  rewrite H; fsimp; cbn [option_map fst].
  set (f1 := set_current (Some i)
               (update_plan (active_plan_id f) (set_statuses (in_progress_fallback i (statuses_of p))) (ftick f))).
  assert (Hf1 : active_plan_id f1 = active_plan_id f /\ current_step_index f1 = Some i
                /\ agents f1 = agents f /\ executor_keys f1 = key :: rest
                /\ exists p1, plans f1 !! active_plan_id f = Some p1 /\ steps p1 = steps p).
  { subst f1; cbn [active_plan_id current_step_index agents executor_keys plans set_current].
    rewrite update_plan_active, update_plan_agents, update_plan_executor_keys, update_plan_lookup.
    cbn [plans ftick active_plan_id agents executor_keys]; rewrite Hp, Hkeys.
    repeat apply conj; try reflexivity.
    eexists; split; reflexivity. }
  clearbody f1; destruct Hf1 as (Ha1 & Hc1 & Hag1 & Hk1 & p1 & Hp1 & Hs1).
  cbn [step_info_of info_type]; rewrite Htag; cbn [option_map].
  rewrite (get_executor_first_key f1 key rest Hk1) by (rewrite Hag1; exact Hkey); fsimp.
  unfold execute_step; cbn [run_st bind].
  destruct (get_plan_text_cases fenv f1) as [t Ht].
  assert (Hf2 : exists f2, run_st (get_plan_text fenv) f1 = (Ok t, f2)
                /\ active_plan_id f2 = active_plan_id f /\ current_step_index f2 = Some i
                /\ agents f2 = agents f
                /\ exists p2, plans f2 !! active_plan_id f = Some p2 /\ steps p2 = steps p).
  { destruct Ht as [Ht|Ht]; eexists; split; [exact Ht| |exact Ht|].
    - cbn [active_plan_id current_step_index agents plans ftick].
      repeat apply conj; [exact Ha1|exact Hc1|exact Hag1|exists p1; split; assumption].
    - cbn [active_plan_id ftick]; rewrite Ha1.
      rewrite update_plan_active, update_plan_current, update_plan_agents, update_plan_lookup.
      cbn [active_plan_id current_step_index agents plans ftick]; rewrite ?Ha1, Hp1.
      repeat apply conj; [reflexivity|exact Hc1|exact Hag1|].
      eexists; split; [reflexivity|exact Hs1]. }
  clear Ht; destruct Hf2 as (f2 & Ht & Ha2 & Hc2 & Hag2 & p2 & Hp2 & Hs2).
  rewrite Ht; fsimp.
  cbn [run_agent]; unfold next_call; fsimp; rewrite Hrun; fsimp.
  set (f3 := set_agents (<[key := FINISHED]> (agents (ftick f2))) (ftick f2)).
  assert (Hc3 : current_step_index f3 = Some i) by exact Hc2.
  assert (Hp3 : plans f3 !! active_plan_id f3 = Some p2) by (cbn; rewrite Ha2; exact Hp2).
  destruct (mark_completed_effect fenv f3 i p2 Hc3 Hp3)
    as (Hm1 & Hm2 & _ & Hm4 & _ & p' & Hp' & _ & Hs' & _ & Hst & _).
  destruct (run_st (mark_step_completed fenv) f3) as [res f4] eqn:Em.
  cbn [fst snd] in *; subst res; fsimp.
  assert (Hag4 : agents f4 !! key = Some FINISHED)
    by (rewrite Hm4; unfold f3; cbn [agents set_agents]; apply lookup_insert_eq).
  unfold executor_finished; rewrite Hag4; fsimp.
  repeat apply conj; [reflexivity|exact Hag4|].
  exists p'; unfold f3 in Hp'; cbn [active_plan_id set_agents ftick] in Hp'; rewrite Ha2 in Hp'.
  repeat apply conj; [exact Hp'|congruence|exact Hst].
Qed.

(** X13: with an empty request, [execute] creates no plan; when no plan is
    stored under the active id it goes straight to the final summary,
    returning "Plan completed:\n\n<summary>", and runs no agent and changes
    no plan. *)
Theorem execute_without_request_or_plan {Json} (fenv : FlowEnv Json) (fuel : nat) (f : Flow)
    (s : pystr)
    (Hpa : primary_agent f <> None)
    (Hno : plans f !! active_plan_id f = None)
    (Hsum : forall k prompt, summary_ask fenv k prompt = Llm_Ok s) :
  fst (run_st (execute fenv (S fuel) []) f) = Ok (lit "Plan completed:" ++ nl ++ nl ++ s)
  /\ agents (snd (run_st (execute fenv (S fuel) []) f)) = agents f
  /\ plans (snd (run_st (execute fenv (S fuel) []) f)) = plans f.
Proof.
  unfold execute, execute_body; fsimp.
  destruct (primary_agent f) as [k|]; [|congruence]; fsimp.
  cbn [nonempty execute_loop]; fsimp.
  unfold loop_iteration; cbn [run_st bind].
  destruct (select_cases fenv f) as [[H _]|(p0 & i0 & stp0 & _ & Hp0 & _ & H)];
    [|congruence].
  rewrite H; fsimp; cbn [option_map].
  unfold finalize_plan; cbn [run_st bind].
  destruct (get_plan_text_cases fenv (set_current None f)) as [t [Ht|Ht]]; rewrite Ht; fsimp;
    [|rewrite update_plan_missing by exact Hno];
    unfold next_call; fsimp; rewrite Hsum; fsimp;
    repeat apply conj; reflexivity.
Qed.

Lemma loop_stops_when_executor_finishes_witness :
  let fe := sample_fenv true (Run_Ok (lit "done") FINISHED) in
  let f := sample_flow (Some [NOT_STARTED; NOT_STARTED; NOT_STARTED]) None in
  nonempty (active_plan_id f) = true
  /\ plans f !! active_plan_id f = Some (sample_plan (Some [NOT_STARTED; NOT_STARTED; NOT_STARTED]))
  /\ first_active (steps (sample_plan (Some [NOT_STARTED; NOT_STARTED; NOT_STARTED])))
       (statuses_of (sample_plan (Some [NOT_STARTED; NOT_STARTED; NOT_STARTED])))
     = Some (0, lit "Analyze request")
  /\ find_type_tag (lit "Analyze request") = None
  /\ executor_keys f = [lit "manus"]
  /\ is_Some (agents f !! lit "manus")
  /\ (forall k prompt, executor_run fe k (lit "manus") prompt = Run_Ok (lit "done") FINISHED)
  /\ fst (run_st (execute_loop fe (S 0) []) f) = Ok (lit "done" ++ nl)
  /\ agents (snd (run_st (execute_loop fe (S 0) []) f)) !! lit "manus" = Some FINISHED
  /\ exists p', plans (snd (run_st (execute_loop fe (S 0) []) f)) !! active_plan_id f = Some p'
     /\ steps p' = steps (sample_plan (Some [NOT_STARTED; NOT_STARTED; NOT_STARTED]))
     /\ status_at (statuses_of p') 0 = COMPLETED.
Proof.
  intros fe f.
  assert (H1 : nonempty (active_plan_id f) = true) by (vm_compute; reflexivity).
  assert (H2 : plans f !! active_plan_id f
               = Some (sample_plan (Some [NOT_STARTED; NOT_STARTED; NOT_STARTED])))
    by (vm_compute; reflexivity).
  assert (H3 : first_active (steps (sample_plan (Some [NOT_STARTED; NOT_STARTED; NOT_STARTED])))
                 (statuses_of (sample_plan (Some [NOT_STARTED; NOT_STARTED; NOT_STARTED])))
               = Some (0, lit "Analyze request")) by (vm_compute; reflexivity).
  assert (H4 : find_type_tag (lit "Analyze request") = None) by (vm_compute; reflexivity).
  assert (H5 : executor_keys f = [lit "manus"]) by reflexivity.
  assert (H6 : is_Some (agents f !! lit "manus")) by (vm_compute; eexists; reflexivity).
  assert (H7 : forall k prompt, executor_run fe k (lit "manus") prompt
                                = Run_Ok (lit "done") FINISHED) by reflexivity.
  repeat (apply conj; [assumption|]).
  exact (loop_stops_when_executor_finishes fe 0 f _ 0 _ _ _ [] H1 H2 H3 H4 H5 H6 H7).
Defined.

Lemma execute_without_request_or_plan_witness :
  let fe := sample_fenv true (Run_Ok (lit "done") FINISHED) in
  let f := MkFlow ∅ (lit "plan_1") None {[ lit "manus" := RUNNING ]} (Some (lit "manus"))
             [lit "manus"] 0 in
  primary_agent f <> None
  /\ plans f !! active_plan_id f = None
  /\ (forall k prompt, summary_ask fe k prompt = Llm_Ok (lit "summary"))
  /\ fst (run_st (execute fe (S 0) []) f)
     = Ok (lit "Plan completed:" ++ nl ++ nl ++ lit "summary")
  /\ agents (snd (run_st (execute fe (S 0) []) f)) = agents f
  /\ plans (snd (run_st (execute fe (S 0) []) f)) = plans f.
Proof.
  intros fe f.
  assert (H1 : primary_agent f <> None) by (vm_compute; discriminate).
  assert (H2 : plans f !! active_plan_id f = None) by (vm_compute; reflexivity).
  assert (H3 : forall k prompt, summary_ask fe k prompt = Llm_Ok (lit "summary"))
    by reflexivity.
  split; [exact H1|split; [exact H2|split; [exact H3|]]].
  exact (execute_without_request_or_plan fe 0 f _ H1 H2 H3).
Defined.

(** ** Building a flow and the command line (app/flow, app/main.py) *)

(** X14: a flow built without a truthy primary key and without executors
    takes the first agent key as its primary agent and all agent keys, in
    order, as executor keys, so [get_executor] without a step type picks the
    first agent; and [create_flow] with a type other than "planning" raises
    ValueError("未知的流程类型: <type>"). *)
Theorem planning_flow_defaults (agents_arg : AgentsArg) (args : FlowArgs) (now : nat)
    (k : pystr) (a : AgentState) (rest : list (pystr * AgentState))
    (Hd : agents_dict agents_arg = (k, a) :: rest)
    (Hpk : field_truthy (arg_primary_agent_key args) = false)
    (Hex : nonempty_list (default [] (arg_executors args)) = false) :
  primary_agent (planning_flow_init agents_arg args now) = Some k
  /\ executor_keys (planning_flow_init agents_arg args now) = k :: map fst rest
  /\ run_st (get_executor None) (planning_flow_init agents_arg args now)
     = (Ok (Some k), planning_flow_init agents_arg args now)
  /\ current_step_index (planning_flow_init agents_arg args now) = None
  /\ (forall flow_type, flow_type <> PLANNING ->
      create_flow flow_type agents_arg args now
      = Raise (Exn ValueError (lit "未知的流程类型: " ++ flow_type) None)).
Proof.
  assert (Hk : (list_to_map ((k, a) :: rest) : gmap pystr AgentState) !! k = Some a)
    by (rewrite list_to_map_cons; apply lookup_insert_eq).
  unfold planning_flow_init; rewrite Hex.
  repeat apply conj.
  - unfold primary_agent; cbn [primary_agent_key agents].
    unfold init_primary_key; rewrite Hd, Hpk.
    rewrite bool_decide_eq_true_2 by (rewrite Hk; eexists; reflexivity); reflexivity.
  - cbn [executor_keys]; rewrite Hd; reflexivity.
  - apply get_executor_first_key with (rest := map fst rest);
      [cbn [executor_keys]; rewrite Hd; reflexivity
      |cbn [agents]; rewrite Hd, Hk; eexists; reflexivity].
  - reflexivity.
  - intros flow_type Hft; unfold create_flow.
    rewrite bool_decide_eq_false_2 by exact Hft; reflexivity.
Qed.

Lemma planning_flow_defaults_witness :
  agents_dict (AgentsList [RUNNING; IDLE]) = (lit "agent_0", RUNNING) :: [(lit "agent_1", IDLE)]
  /\ field_truthy (arg_primary_agent_key (MkFlowArgs None None None ∅)) = false
  /\ nonempty_list (default [] (arg_executors (MkFlowArgs None None None ∅))) = false
  /\ primary_agent (planning_flow_init (AgentsList [RUNNING; IDLE]) (MkFlowArgs None None None ∅) 0)
     = Some (lit "agent_0").
Proof.
  assert (H1 : agents_dict (AgentsList [RUNNING; IDLE])
               = (lit "agent_0", RUNNING) :: [(lit "agent_1", IDLE)])
    by (vm_compute; reflexivity).
  assert (H2 : field_truthy (arg_primary_agent_key (MkFlowArgs None None None ∅)) = false)
    by reflexivity.
  assert (H3 : nonempty_list (default [] (arg_executors (MkFlowArgs None None None ∅))) = false)
    by reflexivity.
  split; [exact H1|split; [exact H2|split; [exact H3|]]].
  exact (proj1 (planning_flow_defaults _ _ 0 _ _ _ H1 H2 H3)).
Defined.

Lemma parse_cli_app (n : nat) (args rest : list pystr) (c c' : CliArgs) :
  length args <= n ->
  parse_cli args c = Some c' -> parse_cli (args ++ rest) c = parse_cli rest c'.
Proof.
  revert args c; induction n as [|n IH]; intros args c Hlen H.
  { destruct args; [injection H as <-; reflexivity|cbn in Hlen; lia]. }
  destruct args as [|x args]; [injection H as <-; reflexivity|].
  cbn [length] in Hlen; cbn [app parse_cli] in *.
  case_bool_decide; [|case_bool_decide; [|case_bool_decide]];
    try (destruct args as [|v args]; [discriminate|]; cbn [app];
         apply IH; [cbn in Hlen; lia|exact H]).
  apply IH; [lia|exact H].
Qed.

Lemma parse_cli_flag_last (args : list pystr) (c c' : CliArgs) (flag : pystr) :
  parse_cli args c = Some c' -> flag ∈ cli_flags -> parse_cli (args ++ [flag]) c = None.
Proof.
  intros H Hf; rewrite (parse_cli_app (length args) args [flag] c c' (le_n _) H).
  cbn [parse_cli].
  unfold cli_flags in Hf; rewrite !elem_of_cons, elem_of_nil in Hf.
  destruct Hf as [->|[->|[->|[]]]];
    repeat first [rewrite bool_decide_eq_true_2 by reflexivity; reflexivity
                 |rewrite bool_decide_eq_false_2 by (vm_compute; discriminate)].
Qed.

(** X15: [main] reads its arguments left to right: parsing a prefix and
    then the rest gives the same result as parsing the whole; a flag with no
    value after it makes [main] return without running an agent; and a later
    "--agent" overrides an earlier one. *)
Theorem cli_arguments_compose (args rest : list pystr) (c c' : CliArgs) :
  (parse_cli args c = Some c' -> parse_cli (args ++ rest) c = parse_cli rest c')
  /\ (parse_cli args cli_default = Some c' ->
      (forall flag, flag ∈ cli_flags -> cli_main (args ++ [flag]) = None)
      /\ (forall t, cli_main (args ++ [lit "--agent"; t])
                   = Some (select_agent (MkCliArgs t (cli_input_image c') (cli_project_name c')),
                           MkCliArgs t (cli_input_image c') (cli_project_name c')))).
Proof.
  split; [apply (parse_cli_app (length args)); lia|].
  intros H; split.
  - intros flag Hf; unfold cli_main; rewrite (parse_cli_flag_last args _ c' flag H Hf);
      reflexivity.
  - intros t; unfold cli_main.
    rewrite (parse_cli_app (length args) args _ _ c' (le_n _) H); cbn [parse_cli].
    rewrite bool_decide_eq_true_2 by reflexivity; reflexivity.
Qed.

Lemma parse_cli_keeps_image (n : nat) (args : list pystr) (c c' : CliArgs) :
  length args <= n -> lit "--image" ∉ args ->
  parse_cli args c = Some c' -> cli_input_image c' = cli_input_image c.
Proof.
  revert args c; induction n as [|n IH]; intros args c Hlen Hno H.
  { destruct args; [injection H as <-; reflexivity|cbn in Hlen; lia]. }
  destruct args as [|x args]; [injection H as <-; reflexivity|].
  cbn [length] in Hlen; cbn [parse_cli] in H.
  rewrite elem_of_cons in Hno.
  case_bool_decide as Ha; [|case_bool_decide as Hi; [|case_bool_decide as Hp]].
  - destruct args as [|v args]; [discriminate|].
    rewrite (IH args _ ltac:(cbn in Hlen; lia)
               ltac:(intros Hin; apply Hno; right; apply elem_of_cons; right; exact Hin) H).
    reflexivity.
  - exfalso; apply Hno; left; symmetry; exact Hi.
  - destruct args as [|v args]; [discriminate|].
    rewrite (IH args _ ltac:(cbn in Hlen; lia)
               ltac:(intros Hin; apply Hno; right; apply elem_of_cons; right; exact Hin) H).
    reflexivity.
  - exact (IH args c ltac:(lia) ltac:(intros Hin; apply Hno; right; exact Hin) H).
Qed.

(** X16: without an "--image" argument, [main] never runs the pipeline
    agent, even for "--agent pipeline", and the image path stays unset. *)
Theorem cli_pipeline_needs_image_flag (argv : list pystr) (k : AgentKind) (c : CliArgs)
    (Hno : lit "--image" ∉ argv) (Hm : cli_main argv = Some (k, c)) :
  cli_input_image c = None /\ k <> PipelineKind.
Proof.
  unfold cli_main in Hm.
  destruct (parse_cli argv cli_default) as [c0|] eqn:E; [|discriminate].
  injection Hm as <- <-.
  assert (Hi : cli_input_image c0 = None)
    by exact (parse_cli_keeps_image (length argv) argv cli_default c0 (le_n _) Hno E).
  split; [exact Hi|].
  unfold select_agent; rewrite Hi; cbn [field_truthy andb].
  rewrite andb_false_r.
  case_bool_decide; discriminate.
Qed.

Lemma cli_pipeline_needs_image_flag_witness :
  (lit "--image" ∉ [lit "--agent"; lit "pipeline"])
  /\ cli_main [lit "--agent"; lit "pipeline"]
     = Some (ManusKind, MkCliArgs (lit "pipeline") None None)
  /\ cli_input_image (MkCliArgs (lit "pipeline") None None) = None
  /\ ManusKind <> PipelineKind.
Proof.
  assert (H1 : lit "--image" ∉ [lit "--agent"; lit "pipeline"])
    by (rewrite !elem_of_cons, elem_of_nil; vm_compute; intros [H|[H|[]]]; discriminate).
  assert (H2 : cli_main [lit "--agent"; lit "pipeline"]
               = Some (ManusKind, MkCliArgs (lit "pipeline") None None))
    by (vm_compute; reflexivity).
  split; [exact H1|split; [exact H2|]].
  exact (cli_pipeline_needs_image_flag _ _ _ H1 H2).
Defined.

(** ** The pipeline agent (app/agent/pipeline_agent.py) *)

Lemma dict_get_set_eq {V} (k : pystr) (v : V) (d : list (pystr * V)) :
  dict_get k (dict_set k v d) = Some v.
Proof.
  induction d as [|[k' v'] d IH]; cbn [dict_set dict_get].
  - rewrite bool_decide_eq_true_2 by reflexivity; reflexivity.
  - case_bool_decide as E; cbn [dict_get].
    + rewrite bool_decide_eq_true_2 by reflexivity; reflexivity.
    + rewrite bool_decide_eq_false_2 by exact E; exact IH.
Qed.

Lemma dict_get_set_ne {V} (k k' : pystr) (v : V) (d : list (pystr * V)) :
  k' <> k -> dict_get k' (dict_set k v d) = dict_get k' d.
Proof.
  intros Hne; induction d as [|[k0 v0] d IH]; cbn [dict_set dict_get].
  - rewrite bool_decide_eq_false_2 by exact Hne; reflexivity.
  - case_bool_decide as E; cbn [dict_get].
    + subst k0; rewrite !bool_decide_eq_false_2 by exact Hne; reflexivity.
    + case_bool_decide; [reflexivity|exact IH].
Qed.

Lemma dict_get_elem {V} (k : pystr) (v : V) (d : list (pystr * V)) :
  dict_get k d = Some v -> (k, v) ∈ d.
Proof.
  induction d as [|[k0 v0] d IH]; cbn [dict_get]; [discriminate|].
  case_bool_decide as E; intros H.
  - injection H as <-; subst k0; left.
  - right; apply IH; exact H.
Qed.

Lemma overall_status_failed (ps : list (pystr * pystr)) (s : pystr) :
  s <> STATUS_KEY -> dict_get s ps = Some FAILED -> overall_status ps = FAILED.
Proof.
  intros Hs H; apply dict_get_elem in H.
  assert (Hf : (s, FAILED) ∈ filter (fun kv : pystr * pystr => kv.1 <> STATUS_KEY) ps)
    by (apply list_elem_of_filter; split; [exact Hs|exact H]).
  apply list_elem_of_In in Hf.
  unfold overall_status.
  destruct (forallb _ _) eqn:Ea.
  - rewrite forallb_forall in Ea; specialize (Ea _ Hf); cbn in Ea.
    apply bool_decide_eq_true in Ea; vm_compute in Ea; discriminate.
  - replace (existsb _ _) with true; [reflexivity|].
    symmetry; apply existsb_exists; exists (s, FAILED); split; [exact Hf|].
    apply bool_decide_eq_true_2; reflexivity.
Qed.

(** [update_pipeline_status] on a step the dict has. *)
Lemma update_status_present (stp st : pystr) (out : option pystr) (p : PAgent) :
  is_Some (dict_get stp (pipeline_status p)) -> stp <> STATUS_KEY ->
  fst (run_st (update_pipeline_status stp st out) p) = Ok tt
  /\ p_base (snd (run_st (update_pipeline_status stp st out) p)) = p_base p
  /\ dict_get stp (pipeline_status (snd (run_st (update_pipeline_status stp st out) p))) = Some st
  /\ (forall k, is_Some (dict_get k (pipeline_status p)) ->
      is_Some (dict_get k (pipeline_status (snd (run_st (update_pipeline_status stp st out) p)))))
  /\ (st = FAILED ->
      dict_get STATUS_KEY (pipeline_status (snd (run_st (update_pipeline_status stp st out) p)))
      = Some FAILED).
Proof.
  intros Hin Hs; unfold update_pipeline_status; cbn [run_st modify].
  rewrite bool_decide_eq_true_2 by exact Hin; cbn [fst snd p_base pipeline_status].
  repeat apply conj.
  - reflexivity.
  - reflexivity.
  - rewrite dict_get_set_ne by exact Hs; apply dict_get_set_eq.
  - intros k Hk; destruct (decide (k = STATUS_KEY)) as [->|Hk1];
      [rewrite dict_get_set_eq; eexists; reflexivity|].
    rewrite dict_get_set_ne by exact Hk1.
    destruct (decide (k = stp)) as [->|Hk2];
      [rewrite dict_get_set_eq; eexists; reflexivity|].
    rewrite dict_get_set_ne by exact Hk2; exact Hk.
  - intros ->; rewrite dict_get_set_eq.
    rewrite (overall_status_failed _ stp Hs) by apply dict_get_set_eq; reflexivity.
Qed.

Lemma step_of_tool_not_status (name s : pystr) :
  step_of_tool name = Some s -> s <> STATUS_KEY.
Proof.
  unfold step_of_tool;
    repeat (case_bool_decide; [intros [= <-]; vm_compute; discriminate|]); discriminate.
Qed.

Lemma is_prefix_app (p x : pystr) : is_prefix p (p ++ x) = true.
Proof. induction p as [|c p IH]; cbn; [reflexivity|rewrite N.eqb_refl; exact IH]. Qed.

Lemma py_in_unfold (p s : pystr) :
  py_in p s = is_prefix p s || match s with [] => false | _ :: s' => py_in p s' end.
Proof. destruct s; reflexivity. Qed.

Lemma error_text_not_success (x : pystr) : reports_success (lit "Error: " ++ x) = false.
Proof.
  unfold reports_success.
  replace (lit "Error: ") with (lit "Error:" ++ [32%N]) by (vm_compute; reflexivity).
  rewrite <- app_assoc, py_in_unfold, is_prefix_app; reflexivity.
Qed.

(** X17: when the argument enhancement passes and the tool maps to a
    pipeline step present in the status dict, [PipelineAgent.execute_tool]
    returns the observation of the base [execute_tool] and records the step
    as completed or failed by that observation; a failed step makes the
    overall status "failed". An unknown tool or unparseable arguments always
    count as a failure. *)
Theorem pipeline_marks_step_by_result {Json} (cfg : AgentConfig) (env : ToolEnv Json)
    (command : ToolCall) (p : PAgent) (s : pystr)
    (Henh : run_st (enhance_arguments command) p = (Ok tt, p))
    (Hs : step_of_tool (fn_name command) = Some s)
    (Hin : is_Some (dict_get s (pipeline_status p))) :
  exists r p',
    run_st (pipeline_execute_tool cfg env command) p = (Ok r, p')
    /\ run_st (execute_tool cfg env command) (p_base p) = (Ok r, p_base p')
    /\ dict_get s (pipeline_status p') = Some (if reports_success r then COMPLETED else FAILED)
    /\ (reports_success r = false -> dict_get STATUS_KEY (pipeline_status p') = Some FAILED)
    /\ (fn_name command ∉ tool_map_names cfg
        \/ json_loads env (arguments_or_default command) = None ->
        reports_success r = false).
Proof.
  pose proof (step_of_tool_not_status _ _ Hs) as Hns.
  unfold pipeline_execute_tool; cbn [run_st bind]; rewrite Henh, Hs; cbn [run_st bind].
  destruct (update_status_present s IN_PROGRESS None p Hin Hns) as (U1 & U2 & U3 & U4 & _).
  destruct (run_st (update_pipeline_status s IN_PROGRESS None) p) as [u1 p1] eqn:Eu1.
  cbn [fst snd] in *; subst u1.
  destruct (execute_tool_ok cfg env command (p_base p)) as (r & a1 & Hr & _).
  unfold on_base; cbn [run_st]; rewrite U2, Hr; cbn [run_st bind].
  set (p2 := MkPAgent a1 (pipeline_status p1) (output_files p1)).
  assert (Hin2 : is_Some (dict_get s (pipeline_status p2))) by (cbn; rewrite U3; eexists; reflexivity).
  destruct (update_status_present s (if reports_success r then COMPLETED else FAILED) (Some r)
              p2 Hin2 Hns) as (V1 & V2 & V3 & _ & V5).
  destruct (run_st (update_pipeline_status s _ (Some r)) p2) as [u2 p3] eqn:Eu2.
  cbn [fst snd] in *; subst u2; cbn [run_st ret].
  exists r, p3; repeat apply conj.
  - reflexivity.
  - rewrite V2; first [exact Hr|reflexivity].
  - exact V3.
  - intros Hf; apply V5; rewrite Hf; reflexivity.
  - intros Hcase.
    destruct (execute_tool_refused cfg env command (p_base p)
                ltac:(right; exact Hcase)) as [msg Hm].
    rewrite Hr in Hm; injection Hm as -> _.
    apply error_text_not_success.
Qed.

Lemma pipeline_marks_step_by_result_witness :
  let p0 := snd (run_st (pipeline_initialize (lit "sys") None None None None) sample_pagent) in
  run_st (enhance_arguments sample_vue_call) p0 = (Ok tt, p0)
  /\ step_of_tool (fn_name sample_vue_call) = Some FRONTEND_GENERATION
  /\ is_Some (dict_get FRONTEND_GENERATION (pipeline_status p0))
  /\ (exists r p',
        run_st (pipeline_execute_tool (sample_cfg TC_AUTO MO_None) sample_env sample_vue_call) p0
        = (Ok r, p')
        /\ run_st (execute_tool (sample_cfg TC_AUTO MO_None) sample_env sample_vue_call) (p_base p0)
           = (Ok r, p_base p')
        /\ dict_get FRONTEND_GENERATION (pipeline_status p')
           = Some (if reports_success r then COMPLETED else FAILED)
        /\ (reports_success r = false -> dict_get STATUS_KEY (pipeline_status p') = Some FAILED)
        /\ (fn_name sample_vue_call ∉ tool_map_names (sample_cfg TC_AUTO MO_None)
            \/ json_loads sample_env (arguments_or_default sample_vue_call) = None ->
            reports_success r = false))
  /\ dict_get STATUS_KEY (pipeline_status (snd (run_st (pipeline_execute_tool
        (sample_cfg TC_AUTO MO_None) sample_env sample_vue_call) p0))) = Some FAILED.
Proof.
  intros p0.
  assert (H1 : run_st (enhance_arguments sample_vue_call) p0 = (Ok tt, p0))
    by (vm_compute; reflexivity).
  assert (H2 : step_of_tool (fn_name sample_vue_call) = Some FRONTEND_GENERATION)
    by (vm_compute; reflexivity).
  assert (H3 : is_Some (dict_get FRONTEND_GENERATION (pipeline_status p0)))
    by (vm_compute; eexists; reflexivity).
  split; [exact H1|split; [exact H2|split; [exact H3|split]]].
  - exact (pipeline_marks_step_by_result (sample_cfg TC_AUTO MO_None) sample_env
             sample_vue_call p0 FRONTEND_GENERATION H1 H2 H3).
  - vm_compute; reflexivity.
Defined.

Lemma initialize_output_files (sp : pystr) (img project desc pkg : option pystr) (p : PAgent) :
  output_files (snd (run_st (pipeline_initialize sp img project desc pkg) p))
  = initial_output_files img project desc pkg.
Proof. reflexivity. Qed.

Lemma files_get_initial (img project desc pkg : option pystr) :
  files_get (lit "package_name") (initial_output_files img project desc pkg)
  = Some (or_default pkg (lit "com.demo"))
  /\ files_get (lit "description_text") (initial_output_files img project desc pkg)
     = Some (or_default desc []).
Proof. split; vm_compute; reflexivity. Qed.

Lemma or_default_truthy (o : option pystr) (d : pystr) :
  field_truthy (Some d) = true -> field_truthy (Some (or_default o d)) = true.
Proof.
  intros Hd; unfold or_default; destruct (field_truthy o) eqn:Eo; [|exact Hd].
  destruct o as [s|]; [exact Eo|discriminate].
Qed.

(** X18: after [initialize] (with any arguments), a call of
    html_to_springboot whose argument text lacks "package_name", or, when a
    description was given, a call of html_to_api_doc whose argument text
    lacks "description_text", raises TypeError (assignment into a string)
    before any status update or tool run, leaving the agent as it was. *)
Theorem pipeline_string_arguments_raise {Json} (cfg : AgentConfig) (env : ToolEnv Json)
    (sp : pystr) (img project desc pkg : option pystr) (p : PAgent) (command : ToolCall) :
  (fn_name command = lit "html_to_springboot" ->
   py_in (lit "package_name") (fn_arguments command) = false ->
   run_st (pipeline_execute_tool cfg env command)
     (snd (run_st (pipeline_initialize sp img project desc pkg) p))
   = (Raise item_assignment_error, snd (run_st (pipeline_initialize sp img project desc pkg) p)))
  /\ (field_truthy desc = true -> fn_name command = lit "html_to_api_doc" ->
      py_in (lit "description_text") (fn_arguments command) = false ->
      run_st (pipeline_execute_tool cfg env command)
        (snd (run_st (pipeline_initialize sp img project desc pkg) p))
      = (Raise item_assignment_error,
         snd (run_st (pipeline_initialize sp img project desc pkg) p))).
Proof.
  set (p0 := snd (run_st (pipeline_initialize sp img project desc pkg) p)).
  assert (Hf : output_files p0 = initial_output_files img project desc pkg)
    by apply initialize_output_files.
  clearbody p0.
  destruct (files_get_initial img project desc pkg) as [Hpk Hds].
  unfold pipeline_execute_tool, enhance_arguments; cbn [run_st bind get].
  split.
  - intros Hn Ha; rewrite Hn, Ha.
    rewrite (bool_decide_eq_false_2 (lit "html_to_springboot" = lit "html_to_api_doc"))
      by (vm_compute; discriminate).
    rewrite (bool_decide_eq_true_2 (lit "html_to_springboot" = lit "html_to_springboot"))
      by reflexivity.
    cbn [andb negb]; rewrite Hf, Hpk.
    rewrite or_default_truthy by (vm_compute; reflexivity); reflexivity.
  - intros Hd Hn Ha; rewrite Hn, Ha.
    rewrite (bool_decide_eq_true_2 (lit "html_to_api_doc" = lit "html_to_api_doc"))
      by reflexivity.
    cbn [andb negb]; rewrite Hf, Hds.
    unfold or_default; rewrite Hd.
    destruct desc as [d|]; [|discriminate].
    change (field_truthy (Some (default [] (Some d)))) with (field_truthy (Some d)).
    rewrite Hd; reflexivity.
Qed.

Lemma update_status_empty (stp st : pystr) (out : option pystr) (p : PAgent) :
  stp <> STATUS_KEY -> pipeline_status p = [] ->
  run_st (update_pipeline_status stp st out) p
  = (Ok tt, MkPAgent (p_base p) [(STATUS_KEY, COMPLETED)] (output_files p)).
Proof.
  intros _ Hps; unfold update_pipeline_status; cbn [run_st modify]; rewrite Hps.
  rewrite bool_decide_eq_false_2 by (cbn; intros [? H]; discriminate H); reflexivity.
Qed.

Lemma update_status_only_status (stp st : pystr) (out : option pystr) (p : PAgent) :
  stp <> STATUS_KEY -> pipeline_status p = [(STATUS_KEY, COMPLETED)] ->
  run_st (update_pipeline_status stp st out) p
  = (Ok tt, MkPAgent (p_base p) [(STATUS_KEY, COMPLETED)] (output_files p)).
Proof.
  intros Hs Hps; unfold update_pipeline_status; cbn [run_st modify]; rewrite Hps.
  rewrite bool_decide_eq_false_2; [reflexivity|].
  cbn [dict_get]; rewrite bool_decide_eq_false_2 by exact Hs; intros [? H]; discriminate H.
Qed.

(** X19: on a [PipelineAgent] whose [pipeline_status] and [output_files]
    are still the empty dicts it is created with (no [initialize] yet),
    [execute_tool] for a tool that maps to a pipeline step returns the base
    [execute_tool]'s observation and leaves the status dict as the single
    entry "status": "completed", whether the tool succeeded or not. *)
Theorem pipeline_uninitialized_reports_completed {Json} (cfg : AgentConfig)
    (env : ToolEnv Json) (command : ToolCall) (p : PAgent) (s : pystr)
    (Hps : pipeline_status p = []) (Hof : output_files p = [])
    (Hs : step_of_tool (fn_name command) = Some s) :
  exists r a',
    run_st (pipeline_execute_tool cfg env command) p
    = (Ok r, MkPAgent a' [(STATUS_KEY, COMPLETED)] [])
    /\ run_st (execute_tool cfg env command) (p_base p) = (Ok r, a').
Proof.
  pose proof (step_of_tool_not_status _ _ Hs) as Hns.
  assert (He : run_st (enhance_arguments command) p = (Ok tt, p)).
  { unfold enhance_arguments; cbn [run_st bind get]; rewrite Hof.
    destruct (_ && _); [reflexivity|]; destruct (_ && _); reflexivity. }
  unfold pipeline_execute_tool; cbn [run_st bind]; rewrite He, Hs; cbn [run_st bind].
  rewrite (update_status_empty s IN_PROGRESS None p Hns Hps).
  destruct (execute_tool_ok cfg env command (p_base p)) as (r & a1 & Hr & _).
  unfold on_base; cbn [run_st p_base]; rewrite Hr; cbn [run_st bind].
  rewrite (update_status_only_status s _ (Some r)
             (MkPAgent a1 [(STATUS_KEY, COMPLETED)] (output_files p)) Hns eq_refl).
  cbn [run_st ret p_base output_files]; rewrite Hof.
  exists r, a1; split; reflexivity.
Qed.

Lemma pipeline_uninitialized_reports_completed_witness :
  pipeline_status sample_pagent = [] /\ output_files sample_pagent = []
  /\ step_of_tool (fn_name sample_vue_call) = Some FRONTEND_GENERATION
  /\ exists r a',
       run_st (pipeline_execute_tool (sample_cfg TC_AUTO MO_None) sample_env sample_vue_call)
         sample_pagent = (Ok r, MkPAgent a' [(STATUS_KEY, COMPLETED)] [])
       /\ run_st (execute_tool (sample_cfg TC_AUTO MO_None) sample_env sample_vue_call)
            (p_base sample_pagent) = (Ok r, a').
Proof.
  assert (H1 : pipeline_status sample_pagent = []) by reflexivity.
  assert (H2 : output_files sample_pagent = []) by reflexivity.
  assert (H3 : step_of_tool (fn_name sample_vue_call) = Some FRONTEND_GENERATION)
    by (vm_compute; reflexivity).
  split; [exact H1|split; [exact H2|split; [exact H3|]]].
  exact (pipeline_uninitialized_reports_completed (sample_cfg TC_AUTO MO_None) sample_env
           sample_vue_call sample_pagent FRONTEND_GENERATION H1 H2 H3).
Defined.

(** X20: when a tool returns a truthy [ToolResult] without an error whose
    output is not a string (such as [CLIResult(system=...)], whose output is
    [None]), [str(result)] raises [TypeError] and [execute_tool] returns
    "Error: ⚠️ Tool '<name>' encountered a problem: __str__ returned
    non-string (type <type>)"; media carried by the result stay captured
    and the state is set as for any other run of the tool. *)
Theorem execute_tool_non_string_output {Json} (cfg : AgentConfig) (env : ToolEnv Json)
    (command : ToolCall) (a : Agent) (args : Json) (r : ToolResult)
    (Hname : fn_name command <> [])
    (Hknown : fn_name command ∈ tool_map_names cfg)
    (Hparse : json_loads env (arguments_or_default command) = Some args)
    (Hrun : tool_invoke env (tool_ticks a) (fn_name command) args = TO_Result r)
    (Htruthy : result_truthy r = true)
    (Herr : field_truthy (tr_error r) = false)
    (Hout : forall x, tr_output r <> Out_Str x) :
  fst (run_st (execute_tool cfg env command) a)
  = Ok (lit "Error: " ++ warning_sign ++ lit " Tool '" ++ fn_name command
        ++ lit "' encountered a problem: " ++ lit "__str__ returned non-string (type "
        ++ output_type_name (tr_output r) ++ lit ")")
  /\ (field_truthy (tr_base64_image r) = true ->
      current_base64_image (snd (run_st (execute_tool cfg env command) a))
      = tr_base64_image r).
Proof.
  unfold execute_tool, handle_special_tool, invoke_tool, format_observation, tool_result_str.
  destruct command as [id name argstr]; cbn [fn_name] in *.
  destruct name as [|c name]; [congruence|]; simp.
  rewrite bool_decide_eq_true_2 by exact Hknown; simp.
  rewrite Hparse; simp; rewrite Hrun; simp.
  rewrite Htruthy, Herr.
  destruct (tr_output r) as [|x|b t] eqn:Eo; [| exfalso; exact (Hout x eq_refl) |];
    destruct (negb (is_special_tool cfg (c :: name))); simp;
    try destruct (should_finish_execution cfg (c :: name) r); simp;
    destruct (field_truthy (tr_base64_image r)); simp;
    (split; [reflexivity|first [reflexivity|discriminate]]).
Qed.

Lemma execute_tool_non_string_output_witness :
  fst (run_st (execute_tool (sample_cfg TC_AUTO MO_None) sample_restart_env sample_bash_call)
         (sample_agent [] []))
  = Ok (lit "Error: " ++ warning_sign ++ lit " Tool 'bash' encountered a problem: "
        ++ lit "__str__ returned non-string (type NoneType)").
Proof.
  assert (Hn : fn_name sample_bash_call <> []) by (vm_compute; discriminate).
  assert (Hk : fn_name sample_bash_call ∈ tool_map_names (sample_cfg TC_AUTO MO_None))
    by (apply (bool_decide_eq_true _); vm_compute; reflexivity).
  assert (Hp : json_loads sample_restart_env (arguments_or_default sample_bash_call) = Some tt)
    by (vm_compute; reflexivity).
  assert (Hr : tool_invoke sample_restart_env 0 (fn_name sample_bash_call) tt
               = TO_Result (MkToolResult Out_None None None (Some (lit "restarted"))))
    by reflexivity.
  assert (Ht : result_truthy (MkToolResult Out_None None None (Some (lit "restarted"))) = true)
    by (vm_compute; reflexivity).
  assert (He : field_truthy (tr_error (MkToolResult Out_None None None (Some (lit "restarted"))))
               = false) by reflexivity.
  assert (Ho : forall x, tr_output (MkToolResult Out_None None None (Some (lit "restarted")))
                         <> Out_Str x) by discriminate.
  rewrite (proj1 (execute_tool_non_string_output (sample_cfg TC_AUTO MO_None) sample_restart_env
                    sample_bash_call (sample_agent [] []) tt _ Hn Hk Hp Hr Ht He Ho)).
  vm_compute; reflexivity.
Defined.
